(** * bahamut: handler shell, processor registry, push registry, NATS publisher

    A shallow embedding of the request path of the bahamut API server:
    response shaping ([makeResponse], [makeErrorResponse]), the
    cancellation-aware runner ([runDispatcher]) with its panic sentinel,
    the seven HTTP handler shells and the seven WebSocket session handlers,
    the processor registry of [server], the session registry of the push
    server and [natsPubSub.Publish].

    Go pointers to mutable structs are modelled by explicit state passing:
    a function that mutates [*elemental.Response] or [*bcontext] returns the
    state of those objects after the call.  Go panics are modelled as a
    completion value.  Functions of the elemental, opentracing and nats
    libraries are parameters of the sections that use them. *)

From Stdlib Require Import ZArith String List.
From Stdlib.Strings Require Import Byte.
From stdpp Require Import gmap strings list fin_maps pretty.

Open Scope Z_scope.
Open Scope string_scope.

(** ** Bytes *)

Definition bytes := list byte.

Definition bytes_of (s : string) : bytes := list_byte_of_string s.
Definition string_of (b : bytes) : string := string_of_list_byte b.

(** ** The model library: identities, operations, errors *)

(** [elemental.Identity]: a singular [Name] and a plural [Category]. *)
Record Identity := mkIdentity { Name : string; Category : string }.

Definition RootIdentity : Identity := mkIdentity "root" "root".
Definition EmptyIdentity : Identity := mkIdentity EmptyString EmptyString.

(** [Identity.IsEmpty]. *)
Definition IsEmpty (i : Identity) : bool :=
  String.eqb (Name i) EmptyString && String.eqb (Category i) EmptyString.

(** [elemental.Operation] is a string type; the library names seven values
    and the empty one. *)
Definition Operation := string.

Definition OperationRetrieveMany : Operation := "retrieve-many".
Definition OperationRetrieve : Operation := "retrieve".
Definition OperationCreate : Operation := "create".
Definition OperationUpdate : Operation := "update".
Definition OperationDelete : Operation := "delete".
Definition OperationPatch : Operation := "patch".
Definition OperationInfo : Operation := "info".
Definition OperationEmpty : Operation := EmptyString.

(** [net/http] status codes used by the handlers. *)
Definition StatusOK : Z := 200.
Definition StatusCreated : Z := 201.
Definition StatusNoContent : Z := 204.
Definition StatusBadRequest : Z := 400.
Definition StatusMethodNotAllowed : Z := 405.
Definition StatusRequestTimeout : Z := 408.
Definition StatusInternalServerError : Z := 500.

(** [elemental.Error]. *)
Record Error := mkError {
  err_code : Z;
  err_description : string;
  err_subject : string;
  err_title : string;
  err_trace : string
}.

(** [elemental.NewError(title, description, subject, code)]. *)
Definition NewError (title description subject : string) (code : Z) : Error :=
  mkError code description subject title EmptyString.

Definition withTrace (t : string) (e : Error) : Error :=
  mkError (err_code e) (err_description e) (err_subject e) (err_title e) t.

(** Go values of type [error] that reach the handlers: an [elemental.Error],
    an [elemental.Errors] list, the two sentinels of package [context], and
    any other error, known by its [Error()] text. *)
Inductive error :=
| ErrElemental (e : Error)
| ErrElementalList (es : list Error)
| ErrCanceled
| ErrDeadlineExceeded
| ErrOther (msg : string).

(** [err == context.Canceled]. *)
Definition isCanceled (e : error) : bool :=
  match e with ErrCanceled => true | _ => false end.

(** [elemental.Error.Error()], as the tests print it:
    [error 500 (bahamut): Internal Server Error: ...]. *)
Definition Error_text (e : Error) : string :=
  "error " ++ pretty (err_code e) ++ " (" ++ err_subject e ++ "): "
    ++ err_title e ++ ": " ++ err_description e.

Fixpoint Errors_text (es : list Error) : string :=
  match es with
  | [] => EmptyString
  | [e] => Error_text e
  | e :: rest => Error_text e ++ ", " ++ Errors_text rest
  end.

(** The [Error()] method of an [error]. *)
Definition error_text (e : error) : string :=
  match e with
  | ErrElemental x => Error_text x
  | ErrElementalList es => Errors_text es
  | ErrCanceled => "context canceled"
  | ErrDeadlineExceeded => "context deadline exceeded"
  | ErrOther msg => msg
  end.

(** [elemental.Errors.Code()]: the code of the first error, -1 when empty. *)
Definition Errors_Code (es : list Error) : Z :=
  match es with
  | [] => -1
  | e :: _ => err_code e
  end.

(** ** Panics *)

(** A value given to [panic]: a string, or an error. *)
Inductive panic_value :=
| PanicString (s : string)
| PanicError (e : error).

(** [fmt.Sprintf("%v", r)]. *)
Definition Sprint (v : panic_value) : string :=
  match v with
  | PanicString s => s
  | PanicError e => error_text e
  end.

(** A call either returns or leaves by a panic. *)
Inductive completion (A : Type) :=
| Returned (a : A)
| Panicked (v : panic_value).
Arguments Returned {A} a.
Arguments Panicked {A} v.

(** ** Processor registry of [server] *)

Module Registry.
Section Registry.

(** [Processor] is an empty interface for the registry: any value. *)
Variable Processor : Type.

(** [server.processors : map[string]Processor].  A stored processor may be
    the nil interface, hence [option]. *)
Record server := mkServer { processors : gmap string (option Processor) }.

(** [NewServer]: [processors: make(map[string]Processor)]. *)
Definition NewServer : server := mkServer ∅.

Inductive registry_error :=
| AlreadyRegistered (i : Identity)
| NotRegistered (i : Identity).

(** [RegisterProcessor]: the error, and the server after the call. *)
Definition RegisterProcessor (b : server) (processor : option Processor)
    (identity : Identity) : option registry_error * server :=
  match processors b !! Name identity with
  | Some _ => (Some (AlreadyRegistered identity), b)
  | None => (None, mkServer (<[Name identity := processor]> (processors b)))
  end.

(** [UnregisterProcessor]. *)
Definition UnregisterProcessor (b : server) (identity : Identity)
    : option registry_error * server :=
  match processors b !! Name identity with
  | None => (Some (NotRegistered identity), b)
  | Some _ => (None, mkServer (delete (Name identity) (processors b)))
  end.

(** [ProcessorForIdentity]: [(Processor, error)]. *)
Definition ProcessorForIdentity (b : server) (identity : Identity)
    : option Processor * option registry_error :=
  match processors b !! Name identity with
  | None => (None, Some (NotRegistered identity))
  | Some p => (p, None)
  end.

(** [ProcessorsCount]. *)
Definition ProcessorsCount (b : server) : nat := size (processors b).

End Registry.
End Registry.

(** ** Tracing and the Go context *)

(** Fields given to [span.LogFields]. *)
Inductive logField :=
| LogInt (key : string) (v : Z)
| LogObjectStrings (key : string) (v : list string)
| LogObjectString (key : string) (v : string).

(** An opentracing span, as far as the handlers write to it. *)
Record Span := mkSpan {
  span_id : string;
  span_fields : list logField;
  span_tags : list (string * Z)
}.

Definition LogFields (fields : list logField) (s : Span) : Span :=
  mkSpan (span_id s) (span_fields s ++ fields)%list (span_tags s).

Definition SetTag (key : string) (v : Z) (s : Span) : Span :=
  mkSpan (span_id s) (span_fields s) (span_tags s ++ [(key, v)])%list.

(** A [context.Context]: the span it carries.  Its cancellation is decided
    by the environment and enters [runDispatcher] as the case its [select]
    takes. *)
Record gocontext := mkContext { ctx_span : option Span }.

(** [opentracing.SpanFromContext]. *)
Definition SpanFromContext (c : gocontext) : option Span := ctx_span c.

(** ** Requests, responses, contexts *)

Record Request := mkRequest {
  req_Operation : Operation;
  req_Identity : Identity;
  req_ParentIdentity : Identity;
  req_Version : Z;
  req_Headers : option (gmap string (list string))
}.

(** [elemental.NewRequest()]: empty operation, empty identities, version 0,
    an allocated header map. *)
Definition NewRequest : Request :=
  mkRequest OperationEmpty EmptyIdentity EmptyIdentity 0 (Some ∅).

Record Response := mkResponse {
  resp_Request : Request;
  resp_StatusCode : Z;
  resp_Total : Z;
  resp_Messages : list string;
  resp_Redirect : string;
  resp_Data : bytes
}.

(** [elemental.NewResponse(req)]. *)
Definition NewResponse (req : Request) : Response :=
  mkResponse req 0 0 [] EmptyString [].

Definition setStatusCode (c : Z) (r : Response) : Response :=
  mkResponse (resp_Request r) c (resp_Total r) (resp_Messages r)
             (resp_Redirect r) (resp_Data r).
Definition setTotal (n : Z) (r : Response) : Response :=
  mkResponse (resp_Request r) (resp_StatusCode r) n (resp_Messages r)
             (resp_Redirect r) (resp_Data r).
Definition setMessages (m : list string) (r : Response) : Response :=
  mkResponse (resp_Request r) (resp_StatusCode r) (resp_Total r) m
             (resp_Redirect r) (resp_Data r).
Definition setRedirect (u : string) (r : Response) : Response :=
  mkResponse (resp_Request r) (resp_StatusCode r) (resp_Total r)
             (resp_Messages r) u (resp_Data r).
Definition setData (d : bytes) (r : Response) : Response :=
  mkResponse (resp_Request r) (resp_StatusCode r) (resp_Total r)
             (resp_Messages r) (resp_Redirect r) d.

(** *** Output data

    Modelled from the spec: the identifiables of the model library, which
    the handlers only reach through [elemental.ResetSecretAttributesValues],
    [ToSparse] and the encoder.  An identifiable is its attributes in
    declaration order; a sparse identifiable holds the attributes that were
    kept. *)
Inductive value :=
| VStr (s : string)
| VInt (z : Z)
| VBool (b : bool).

Definition zero_value (v : value) : value :=
  match v with
  | VStr _ => VStr EmptyString
  | VInt _ => VInt 0
  | VBool _ => VBool false
  end.

Record attribute := mkAttr {
  attr_name : string;
  attr_value : value;
  attr_secret : bool
}.

Definition identifiable := list attribute.

(** What [ctx.outputData] (an [interface{}]) can hold, by the cases of the
    type switch in [makeResponse]; [OtherData] is any other Go value. *)
Inductive output :=
| PlainIdentifiable (o : identifiable)
| PlainIdentifiables (os : list identifiable)
| SparseIdentifiable (o : identifiable)
| SparseIdentifiables (os : list identifiable)
| OtherData (v : string).

Definition resetSecrets (o : identifiable) : identifiable :=
  map (fun a => if attr_secret a
                then mkAttr (attr_name a) (zero_value (attr_value a)) true
                else a) o.

(** Modelled from the spec: [elemental.ResetSecretAttributesValues] ("strip
    secret attributes on the output data"), in place. *)
Definition ResetSecretAttributesValues (d : output) : output :=
  match d with
  | PlainIdentifiable o => PlainIdentifiable (resetSecrets o)
  | PlainIdentifiables os => PlainIdentifiables (map resetSecrets os)
  | SparseIdentifiable o => SparseIdentifiable (resetSecrets o)
  | SparseIdentifiables os => SparseIdentifiables (map resetSecrets os)
  | OtherData v => OtherData v
  end.

Definition listed (fields : list string) (n : string) : bool :=
  existsb (String.eqb n) fields.

(** Modelled from the spec: [ToSparse(fields...)] ("project sparse output
    containing only the listed attributes"); with no field every attribute
    is kept. *)
Definition ToSparse (fields : list string) (o : identifiable) : identifiable :=
  match fields with
  | [] => o
  | _ => List.filter (fun a => listed fields (attr_name a)) o
  end.

Record bcontext := mkBContext {
  c_ctx : gocontext;
  c_request : Request;
  c_statusCode : Z;
  c_count : Z;
  c_messages : list string;
  c_outputData : option output;
  c_redirect : string
}.

(** [newContext(ctx, request)]. *)
Definition newContext (c : gocontext) (r : Request) : bcontext :=
  mkBContext c r 0 0 [] None EmptyString.

Definition setOutputData (d : option output) (c : bcontext) : bcontext :=
  mkBContext (c_ctx c) (c_request c) (c_statusCode c) (c_count c)
             (c_messages c) d (c_redirect c).
Definition setCtx (g : gocontext) (c : bcontext) : bcontext :=
  mkBContext g (c_request c) (c_statusCode c) (c_count c)
             (c_messages c) (c_outputData c) (c_redirect c).

(** What a response is asked to encode. *)
Inductive encodable :=
| EncErrors (es : list Error)
| EncOutput (d : output).

(** ** Trace cleaner

    [type TraceCleaner func(elemental.Identity, []byte) []byte].  The slice
    a cleaner receives shares its backing array with the slice it was cut
    from, so a call is known by the stores it makes into its argument, in
    order, and by the slice it returns. *)
Record cleaned := mkCleaned {
  cl_stores : list (nat * byte);
  cl_result : bytes
}.

Definition TraceCleaner := Identity -> bytes -> cleaned.

(** [data[i] = b] for each store in turn; a store at or beyond [len(data)]
    is an index-out-of-range panic, after the stores before it. *)
Fixpoint store_all (stores : list (nat * byte)) (data : bytes)
    : bytes * bool :=
  match stores with
  | [] => (data, true)
  | (i, b) :: rest =>
      if (i <? length data)%nat then store_all rest (<[i := b]> data)
      else (data, false)
  end.

Definition indexOutOfRange : panic_value :=
  PanicError (ErrOther "runtime error: index out of range").

(** ** Response shaping *)

(** What a shaping function hands back: the pointer it was given, nil, or a
    panic; [RetBlocked] is a runner parked in its [select] for good. *)
Inductive ret :=
| RetResponse
| RetNil
| RetPanic (v : panic_value)
| RetBlocked.

(** The objects behind [*bcontext] and [*elemental.Response] after a call,
    and what the call returned. *)
Record shaped := mkShaped {
  sh_ctx : bcontext;
  sh_response : Response;
  sh_ret : ret
}.

(** Modelled from the spec: [extractSpanID], not among the sources; the
    trace identifier comes "from the active span, or [unknown]". *)
Definition extractSpanID (span : option Span) : string :=
  match span with
  | Some s => span_id s
  | None => "unknown"
  end.

(** Modelled from the spec: [processError], not among the sources.  Errors
    are wrapped into the taxonomy of section 7 with the trace identifier:
    an elemental error keeps its code, "Timeout (408) - context deadline
    exceeded", "Internal (500) - panic or unclassified error".  The subject
    and title of the unclassified case are those of the body expected by
    [TestHandlers_makeErrorResponse]. *)
Definition processError (ctx : gocontext) (err : error) : list Error :=
  let trace := extractSpanID (SpanFromContext ctx) in
  match err with
  | ErrElemental e => [withTrace trace e]
  | ErrElementalList es => map (withTrace trace) es
  | ErrDeadlineExceeded =>
      [withTrace trace
         (NewError "Request Timeout" (error_text err) "bahamut"
                   StatusRequestTimeout)]
  | ErrCanceled | ErrOther _ =>
      [withTrace trace
         (NewError "Internal Server Error" (error_text err) "elemental"
                   StatusInternalServerError)]
  end.

Section Shaping.

(** [response.Encode]: the bytes, or the text of the encoder's error.
    The encoding is the one negotiated for the request. *)
Variable Encode : encodable -> bytes + string.

(** [makeErrorResponse]: the response object after the call and what was
    returned. *)
Definition makeErrorResponse (ctx : gocontext) (response : Response)
    (err : error) : Response * ret :=
  if isCanceled err then (response, RetNil)
  else
    let outError := processError ctx err in
    let response := setStatusCode (Errors_Code outError) response in
    match Encode (EncErrors outError) with
    | inr msg =>
        (response,
         RetPanic (PanicError (ErrOther ("unable to encode error: " ++ msg))))
    | inl data => (setData data response, RetResponse)
    end.

(** The deferred function of [makeResponse]: log the fields and tag the
    status code on the span of the context, if there is one. *)
Definition logSpan (ctx : bcontext) (fields : list logField)
    (response : Response) : bcontext :=
  match SpanFromContext (c_ctx ctx) with
  | Some span =>
      setCtx (mkContext
                (Some (SetTag "status.code" (resp_StatusCode response)
                              (LogFields fields span)))) ctx
  | None => ctx
  end.

(** The status derived from the operation when the context has none. *)
Definition defaultStatus (op : Operation) : Z :=
  if String.eqb op OperationCreate then StatusCreated
  else if String.eqb op OperationInfo then StatusNoContent
  else StatusOK.

(** The sparse projection of the type switch: plain identifiables and
    lists of them are projected, anything else is left as it is. *)
Definition project (fields : list string) (d : output) : output :=
  match d with
  | PlainIdentifiable o => SparseIdentifiable (ToSparse fields o)
  | PlainIdentifiables os => SparseIdentifiables (map (ToSparse fields) os)
  | other => other
  end.

(** [ctx.Request().Headers["X-Fields"]], nil when there is no header map. *)
Definition requestedFields (r : Request) : list string :=
  match req_Headers r with
  | Some h => default [] (h !! "X-Fields")
  | None => []
  end.

Definition makeResponse (ctx : bcontext) (response : Response)
    (cleaner : option TraceCleaner) : shaped :=
  if negb (String.eqb (c_redirect ctx) EmptyString) then
    mkShaped ctx (setRedirect (c_redirect ctx) response) RetResponse
  else
    let op := req_Operation (c_request ctx) in
    let response := setStatusCode (c_statusCode ctx) response in
    let response :=
      if Z.eqb (resp_StatusCode response) 0
      then setStatusCode (defaultStatus op) response
      else response in
    let counted :=
      String.eqb op OperationRetrieveMany || String.eqb op OperationInfo in
    let response :=
      if counted then setTotal (c_count ctx) response else response in
    let fields :=
      if counted then [LogInt "count-total" (c_count ctx)] else [] in
    let msgs := c_messages ctx in
    let response :=
      if (0 <? length msgs)%nat then setMessages msgs response
      else response in
    let fields :=
      if (0 <? length msgs)%nat
      then (fields ++ [LogObjectStrings "messages" msgs])%list
      else fields in
    match c_outputData ctx with
    | None =>
        let response := setStatusCode StatusNoContent response in
        mkShaped (logSpan ctx fields response) response RetResponse
    | Some d =>
        let requested := requestedFields (c_request ctx) in
        let d := ResetSecretAttributesValues d in
        let d :=
          if (0 <? length requested)%nat then project requested d else d in
        let ctx := setOutputData (Some d) ctx in
        match Encode (EncOutput d) with
        | inr msg =>
            mkShaped (logSpan ctx fields response) response
              (RetPanic (PanicError
                 (ErrOther ("unable to encode output data: " ++ msg))))
        | inl encoded =>
            let response := setData encoded response in
            match cleaner with
            | None =>
                let fields :=
                  (fields
                     ++ [LogObjectString "response" (string_of encoded)])%list in
                mkShaped (logSpan ctx fields response) response RetResponse
            | Some clean =>
                let c := clean (req_Identity (resp_Request response)) encoded in
                let '(shared, ok) := store_all (cl_stores c) encoded in
                let response := setData shared response in
                if ok then
                  let fields :=
                    (fields
                       ++ [LogObjectString "response"
                                           (string_of (cl_result c))])%list in
                  mkShaped (logSpan ctx fields response) response RetResponse
                else
                  mkShaped (logSpan ctx fields response) response
                           (RetPanic indexOutOfRange)
            end
        end
    end.

End Shaping.

(** ** The runner and its panic sentinel *)

(** Modelled from the spec: [handleRecoveredPanic], not among the sources.
    [r] is what [recover()] gave, [None] when nothing panicked.  "A trapped
    panic is reported to the runner as a 500 error with the panic value as
    description"; with [disablePanicRecovery] "the panic propagates".  The
    title and subject are those of the text expected by
    [TestHandlers_handleEventualPanic]. *)
Definition handleRecoveredPanic (r : option panic_value)
    (disablePanicRecovery : bool) : completion (option error) :=
  match r with
  | None => Returned None
  | Some v =>
      if disablePanicRecovery then Panicked v
      else Returned (Some (ErrElemental
             (NewError "Internal Server Error" (Sprint v) "bahamut"
                       StatusInternalServerError)))
  end.

(** [handleEventualPanic], deferred in the dispatcher task; [recovered] is
    the value of its [recover()].  [Returned (Some err)] is the send
    [c <- err], [Returned None] is no send, [Panicked v] is a panic that
    goes on past the deferred call. *)
Definition handleEventualPanic (recovered : option panic_value)
    (disablePanicRecovery : bool) : completion (option error) :=
  match handleRecoveredPanic recovered disablePanicRecovery with
  | Panicked v => Panicked v
  | Returned (Some err) => Returned (Some err)
  | Returned None => Returned None
  end.

(** The closure [d]: the context object after the call, and whether the
    call returned an error value or panicked. *)
Definition dispatcher := bcontext -> bcontext * completion (option error).

(** What reaches the channel [e] from the task
    [go func() { defer handleEventualPanic(...); select { case e <- d(): default: } }()]
    while the runner is receiving. *)
Inductive delivery :=
| Delivered (err : option error)
| Nothing
| Crash (v : panic_value).

Definition dispatcherTask (done : completion (option error))
    (disablePanicRecovery : bool) : delivery :=
  match done with
  | Returned err => Delivered err
  | Panicked v =>
      match handleEventualPanic (Some v) disablePanicRecovery with
      | Returned (Some err) => Delivered (Some err)
      | Returned None => Nothing
      | Panicked v' => Crash v'
      end
  end.

(** [ctx.ctx.Err()] once the context is done. *)
Inductive cancel_cause := Canceled | DeadlineExceeded.

Definition ctxErr (c : cancel_cause) : error :=
  match c with
  | Canceled => ErrCanceled
  | DeadlineExceeded => ErrDeadlineExceeded
  end.

(** The case taken by the [select] of [runDispatcher]: the context is done
    before the task delivers, or the task delivers first. *)
Inductive selected :=
| SelDone (cause : cancel_cause)
| SelRecv.

(** The result of a handler: how many times the dispatcher closure was
    called, and the shaped response. *)
Record handled := mkHandled {
  h_calls : nat;
  h_result : shaped
}.

Definition nilDereference : panic_value :=
  PanicError
    (ErrOther "runtime error: invalid memory address or nil pointer dereference").

Section Handlers.

Variable Encode : encodable -> bytes + string.

(** [elemental.RelationshipsRegistry] and [elemental.IsOperationAllowed]. *)
Variable RelationshipsRegistry : Type.
Variable IsOperationAllowed :
  RelationshipsRegistry -> Identity -> Identity -> Operation -> bool.

(** The dispatch functions are not among the sources:
    [dispatchOperation op] is the closure a shell builds around the
    dispatch function of [op]. *)
Variable dispatchOperation : Operation -> dispatcher.

(** [elemental.ModelManager], of which the shells call [Relationships()]. *)
Record ModelManager := mkModelManager {
  Relationships : RelationshipsRegistry
}.

(** The fields of [config] the shells read themselves. *)
Record config := mkConfig {
  modelManagers : gmap Z ModelManager;
  panicRecoveryDisabled : bool;
  traceCleaner : option TraceCleaner
}.

(** [runDispatcher].  On [SelDone] the task still runs [d], but what it
    does to the context is not awaited: the context object is returned as
    it was. *)
Definition runDispatcher (ctx : bcontext) (r : Response) (d : dispatcher)
    (disablePanicRecovery : bool) (cleaner : option TraceCleaner)
    (sel : selected) : handled :=
  match sel with
  | SelDone cause =>
      let '(r', out) := makeErrorResponse Encode (c_ctx ctx) r (ctxErr cause) in
      mkHandled 1 (mkShaped ctx r' out)
  | SelRecv =>
      let '(ctx', done) := d ctx in
      match dispatcherTask done disablePanicRecovery with
      | Delivered (Some err) =>
          let '(r', out) := makeErrorResponse Encode (c_ctx ctx') r err in
          mkHandled 1 (mkShaped ctx' r' out)
      | Delivered None => mkHandled 1 (makeResponse Encode ctx' r cleaner)
      | Nothing => mkHandled 1 (mkShaped ctx' r RetBlocked)
      | Crash v => mkHandled 1 (mkShaped ctx' r (RetPanic v))
      end
  end.

(** The body shared by the seven shells: the operation checked and
    dispatched, and the description of the 405. *)
Definition shell (op : Operation) (description : string)
    (ctx : bcontext) (cfg : config) (sel : selected) : handled :=
  let response := NewResponse (c_request ctx) in
  match modelManagers cfg !! req_Version (c_request ctx) with
  | None => mkHandled 0 (mkShaped ctx response (RetPanic nilDereference))
  | Some manager =>
      if negb (IsOperationAllowed (Relationships manager)
                 (req_Identity (c_request ctx))
                 (req_ParentIdentity (c_request ctx)) op)
      then
        let '(r', out) :=
          makeErrorResponse Encode (c_ctx ctx) response
            (ErrElemental (NewError "Not allowed" description "bahamut"
                                    StatusMethodNotAllowed)) in
        mkHandled 0 (mkShaped ctx r' out)
      else
        runDispatcher ctx response (dispatchOperation op)
          (panicRecoveryDisabled cfg) (traceCleaner cfg) sel
  end.

Definition handleRetrieveMany (ctx : bcontext) :=
  shell OperationRetrieveMany
    ("RetrieveMany operation not allowed on "
       ++ Category (req_Identity (c_request ctx))) ctx.

Definition handleRetrieve (ctx : bcontext) :=
  shell OperationRetrieve
    ("Retrieve operation not allowed on "
       ++ Name (req_Identity (c_request ctx))) ctx.

Definition handleCreate (ctx : bcontext) :=
  shell OperationCreate
    ("Create operation not allowed on "
       ++ Name (req_Identity (c_request ctx))) ctx.

Definition handleUpdate (ctx : bcontext) :=
  shell OperationUpdate
    ("Update operation not allowed on "
       ++ Name (req_Identity (c_request ctx))) ctx.

Definition handleDelete (ctx : bcontext) :=
  shell OperationDelete
    ("Delete operation not allowed on "
       ++ Name (req_Identity (c_request ctx))) ctx.

Definition handleInfo (ctx : bcontext) :=
  shell OperationInfo
    ("Info operation not allowed on "
       ++ Category (req_Identity (c_request ctx))) ctx.

Definition handlePatch (ctx : bcontext) :=
  shell OperationPatch
    ("Patch operation not allowed on "
       ++ Category (req_Identity (c_request ctx))) ctx.

End Handlers.

(** ** WebSocket API session handlers *)

Module WS.
Section Session.

(** The relationship queries of the model library used by the session. *)
Variable RelationshipsRegistry : Type.
Variable IsRetrieveManyAllowed :
  option RelationshipsRegistry -> Identity -> Identity -> bool.
Variable IsRetrieveAllowed : option RelationshipsRegistry -> Identity -> bool.
Variable IsCreateAllowed :
  option RelationshipsRegistry -> Identity -> Identity -> bool.
Variable IsUpdateAllowed : option RelationshipsRegistry -> Identity -> bool.
Variable IsDeleteAllowed : option RelationshipsRegistry -> Identity -> bool.
Variable IsInfoAllowed :
  option RelationshipsRegistry -> Identity -> Identity -> bool.
Variable IsPatchAllowed :
  option RelationshipsRegistry -> Identity -> Identity -> bool.

(** [s.config.Model.RelationshipsRegistry], by model version; a missing
    version reads as the nil registry. *)
Record wsAPISession := mkSession {
  registries : gmap Z RelationshipsRegistry
}.

(** The two ways a session handler ends: [writeWebSocketError] with the
    response and the error, or [runWSDispatcher] around the dispatch
    function of an operation.  Neither callee is among the sources, so a
    handler is embedded up to the call it makes; the tracing of the request
    and the deferred [s.handleEventualPanic] around that call are left
    out. *)
Inductive action :=
| WriteWebSocketError (response : Response) (err : Error)
| RunWSDispatcher (response : Response) (op : Operation).

Definition dispatches (a : action) : bool :=
  match a with
  | RunWSDispatcher _ _ => true
  | WriteWebSocketError _ _ => false
  end.

Definition notAllowed (response : Response) (description : string) : action :=
  WriteWebSocketError response
    (NewError "Not allowed" description "bahamut" StatusMethodNotAllowed).

Definition registryFor (s : wsAPISession) (request : Request) :=
  registries s !! req_Version request.

(** [parentIdentity := request.ParentIdentity], Root when empty. *)
Definition parentOrRoot (request : Request) : Identity :=
  if IsEmpty (req_ParentIdentity request) then RootIdentity
  else req_ParentIdentity request.

Definition handleRetrieveMany (s : wsAPISession) (request : Request) : action :=
  let response := NewResponse request in
  if negb (IsRetrieveManyAllowed (registryFor s request)
             (req_Identity request) (parentOrRoot request))
  then notAllowed response
         ("RetrieveMany operation not allowed on "
            ++ Category (req_Identity request))
  else RunWSDispatcher response OperationRetrieveMany.

Definition handleRetrieve (s : wsAPISession) (request : Request) : action :=
  let response := NewResponse request in
  if negb (IsRetrieveAllowed (registryFor s request) (req_Identity request))
     || negb (IsEmpty (req_ParentIdentity request))
  then notAllowed response
         ("Retrieve operation not allowed on " ++ Name (req_Identity request))
  else RunWSDispatcher response OperationRetrieve.

Definition handleCreate (s : wsAPISession) (request : Request) : action :=
  let response := NewResponse request in
  if negb (IsCreateAllowed (registryFor s request)
             (req_Identity request) (parentOrRoot request))
  then notAllowed response
         ("Create operation not allowed on " ++ Name (req_Identity request))
  else RunWSDispatcher response OperationCreate.

Definition handleUpdate (s : wsAPISession) (request : Request) : action :=
  let response := NewResponse request in
  if negb (IsUpdateAllowed (registryFor s request) (req_Identity request))
     || negb (IsEmpty (req_ParentIdentity request))
  then notAllowed response
         ("Update operation not allowed on " ++ Name (req_Identity request))
  else RunWSDispatcher response OperationUpdate.

Definition handleDelete (s : wsAPISession) (request : Request) : action :=
  let response := NewResponse request in
  if negb (IsDeleteAllowed (registryFor s request) (req_Identity request))
     || negb (IsEmpty (req_ParentIdentity request))
  then notAllowed response
         ("Delete operation not allowed on " ++ Name (req_Identity request))
  else RunWSDispatcher response OperationDelete.

Definition handleInfo (s : wsAPISession) (request : Request) : action :=
  let response := NewResponse request in
  if negb (IsInfoAllowed (registryFor s request)
             (req_Identity request) (parentOrRoot request))
  then notAllowed response
         ("Info operation not allowed on " ++ Category (req_Identity request))
  else RunWSDispatcher response OperationInfo.

Definition handlePatch (s : wsAPISession) (request : Request) : action :=
  let response := NewResponse request in
  if negb (IsPatchAllowed (registryFor s request)
             (req_Identity request) (parentOrRoot request))
  then notAllowed response
         ("Patch operation not allowed on " ++ Name (req_Identity request))
  else RunWSDispatcher response OperationPatch.

End Session.
End WS.

(** ** Push server: the session registry *)

Module Push.

(** A push session, by its stable identifier. *)
Record PushSession := mkPushSession { id : string }.

(** What the optional session handler is told. *)
Inductive notification :=
| OnPushSessionStart (s : PushSession)
| OnPushSessionStop (s : PushSession).

(** The state owned by the control goroutine: the live sessions by
    identifier and, when a session handler is configured, what it has
    been told so far. *)
Record pushServer := mkPushServer {
  sessions : gmap string PushSession;
  handler : option (list notification)
}.

(** [newPushServer]: no session. *)
Definition newPushServer (withHandler : bool) : pushServer :=
  mkPushServer ∅ (if withHandler then Some [] else None).

Definition notify (n : notification) (h : option (list notification))
    : option (list notification) :=
  match h with
  | Some told => Some (told ++ [n])%list
  | None => None
  end.

(** Modelled from the spec: the [register] case of the control loop of
    push_server.go, which is not among the sources.  "register s: add to
    set; notify optional SessionHandler"; "registering the same session
    twice yields exactly one entry", and [TestSession_registerSession]
    counts one session at the handler after two registrations, so a
    session already in the set is left alone. *)
Definition register (s : PushSession) (srv : pushServer) : pushServer :=
  match sessions srv !! id s with
  | Some _ => srv
  | None =>
      mkPushServer (<[id s := s]> (sessions srv))
                   (notify (OnPushSessionStart s) (handler srv))
  end.

(** Modelled from the spec: the [unregister] case of the control loop.
    "unregister s: remove from set if present; notify SessionHandler;
    ... Must be idempotent (second unregister is a no-op)". *)
Definition unregister (s : PushSession) (srv : pushServer) : pushServer :=
  match sessions srv !! id s with
  | None => srv
  | Some _ =>
      mkPushServer (delete (id s) (sessions srv))
                   (notify (OnPushSessionStop s) (handler srv))
  end.

(** The control loop takes one message at a time. *)
Inductive control :=
| Register (s : PushSession)
| Unregister (s : PushSession).

Definition step (srv : pushServer) (m : control) : pushServer :=
  match m with
  | Register s => register s srv
  | Unregister s => unregister s srv
  end.

Definition run (srv : pushServer) (ms : list control) : pushServer :=
  fold_left step ms srv.

(** The counter of the test's session handler: one up at each start, one
    down at each stop. *)
Fixpoint sessionCount (told : list notification) : Z :=
  match told with
  | [] => 0
  | OnPushSessionStart _ :: rest => sessionCount rest + 1
  | OnPushSessionStop _ :: rest => sessionCount rest - 1
  end.

End Push.

(** ** NATS publisher *)

Module Nats.
Section Publish.

(** [*nats.Conn], [*nats.Msg] and the context of a request. *)
Variable Conn Msg Ctx : Type.

Record Publication := mkPublication {
  Topic : string;
  Data : bytes
}.

(** The messages handed to the bus, oldest first. *)
Definition bus := list (string * bytes).

(** [elemental.Encode(elemental.EncodingTypeMSGPACK, publication)]. *)
Variable Encode : Publication -> bytes + string.

(** [client.Publish] and [client.RequestWithContext] on a bus. *)
Variable connPublish : Conn -> string -> bytes -> bus -> option error * bus.
Variable connRequest :
  Conn -> option Ctx -> string -> bytes -> bus -> (Msg + error) * bus.

Record natsPublishConfig := mkPublishConfig {
  ctx : option Ctx;
  replyValidator : option (Msg -> option error)
}.

(** [PubSubOptPublish]: an option changes the configuration it is given. *)
Definition PubSubOptPublish := natsPublishConfig -> natsPublishConfig.

(** The field of [natsPubSub] that [Publish] reads: the client, nil until
    [Connect] has succeeded. *)
Record natsPubSub := mkNatsPubSub { client : option Conn }.

(** [natsPubSub.Publish]: the error returned and the bus afterwards. *)
Definition Publish (p : natsPubSub) (publication : Publication)
    (opts : list PubSubOptPublish) (b : bus) : option error * bus :=
  let config :=
    fold_left (fun c opt => opt c) opts (mkPublishConfig None None) in
  match client p with
  | None => (Some (ErrOther "not connected to nats. messages dropped"), b)
  | Some conn =>
      match Encode publication with
      | inr msg =>
          (Some (ErrOther
                   ("unable to encode publication. message dropped: " ++ msg)),
           b)
      | inl data =>
          match replyValidator config with
          | None => connPublish conn (Topic publication) data b
          | Some validate =>
              match connRequest conn (ctx config) (Topic publication) data b with
              | (inr err, b') => (Some err, b')
              | (inl msg, b') => (validate msg, b')
              end
          end
      end
  end.

End Publish.
End Nats.

(** ** JSON rendering of the test bodies

    The encoder is a parameter of the handlers.  The bodies the tests
    expect are JSON; this rendering produces them for values whose strings
    need no escaping. *)

Definition quote : string := String (Ascii.ascii_of_nat 34) EmptyString.

Definition jsonString (s : string) : string := quote ++ s ++ quote.

Definition jsonValue (v : value) : string :=
  match v with
  | VStr s => jsonString s
  | VInt z => pretty z
  | VBool true => "true"
  | VBool false => "false"
  end.

Fixpoint commaSep (parts : list string) : string :=
  match parts with
  | [] => EmptyString
  | [p] => p
  | p :: rest => p ++ "," ++ commaSep rest
  end.

Definition jsonObject (o : identifiable) : string :=
  "{" ++ commaSep (map (fun a => jsonString (attr_name a) ++ ":"
                                   ++ jsonValue (attr_value a)) o) ++ "}".

Definition jsonArray (parts : list string) : string :=
  "[" ++ commaSep parts ++ "]".

Definition jsonError (e : Error) : string :=
  "{" ++ jsonString "code" ++ ":" ++ pretty (err_code e) ++ ","
      ++ jsonString "data" ++ ":null,"
      ++ jsonString "description" ++ ":" ++ jsonString (err_description e) ++ ","
      ++ jsonString "subject" ++ ":" ++ jsonString (err_subject e) ++ ","
      ++ jsonString "title" ++ ":" ++ jsonString (err_title e) ++ ","
      ++ jsonString "trace" ++ ":" ++ jsonString (err_trace e) ++ "}".

Definition jsonText (x : encodable) : string :=
  match x with
  | EncErrors es => jsonArray (map jsonError es)
  | EncOutput (PlainIdentifiable o) => jsonObject o
  | EncOutput (SparseIdentifiable o) => jsonObject o
  | EncOutput (PlainIdentifiables os) => jsonArray (map jsonObject os)
  | EncOutput (SparseIdentifiables os) => jsonArray (map jsonObject os)
  | EncOutput (OtherData v) => v
  end.

Definition jsonEncode (x : encodable) : bytes + string :=
  inl (bytes_of (jsonText x)).

(** ** Fixtures of the tests *)

Definition UserIdentity : Identity := mkIdentity "user" "users".

(** A [testmodel.List] with the attributes the tests set, in declaration
    order. *)
Definition testList (name ident description : string) : identifiable :=
  [ mkAttr "ID" (VStr ident) false;
    mkAttr "description" (VStr description) false;
    mkAttr "name" (VStr name) false ].

(** A request with [X-Fields: name] and [X-Fields: ID] added. *)
Definition xfieldsRequest : Request :=
  mkRequest OperationEmpty EmptyIdentity EmptyIdentity 0
            (Some {[ "X-Fields" := ["name"; "ID"] ]}).

Definition noSpan : gocontext := mkContext None.

(** The relationships of the test model as the shells query them: a user
    may be reached under the root only. *)
Definition testRelationships (i parent : Identity) (op : Operation) : bool :=
  String.eqb (Name parent) "root".

Definition testIsOperationAllowed
    (reg : Identity -> Identity -> Operation -> bool) := reg.

(** A dispatcher that finds no processor. *)
Definition notImplemented (op : Operation) : dispatcher :=
  fun ctx =>
    (ctx, Returned (Some (ErrElemental
       (NewError "Not implemented"
          ("No handler for operation " ++ op ++ " on "
             ++ Name (req_Identity (c_request ctx)))
          "bahamut" 501)))).

Definition testConfig : config (Identity -> Identity -> Operation -> bool) :=
  mkConfig _ {[ 0 := mkModelManager _ testRelationships;
                1 := mkModelManager _ testRelationships ]} false None.

(** A request for users under a user. *)
Definition userUnderUser (op : Operation) : Request :=
  mkRequest op UserIdentity UserIdentity 0 (Some ∅).

(** A request carrying [X-Fields] whose output is one [testmodel.List], and
    one whose output is a list of two. *)
Definition oneList : bcontext :=
  setOutputData
    (Some (PlainIdentifiable (testList "the name" "xxx" " the description")))
    (newContext noSpan xfieldsRequest).

Definition twoLists : bcontext :=
  setOutputData
    (Some (PlainIdentifiables
             [ testList "the name" "xxx" " the description";
               testList "the name2" "xxx2" " the description2" ]))
    (newContext noSpan xfieldsRequest).

(** The same single list under a context that carries a span. *)
Definition tracedList : bcontext :=
  setCtx (mkContext (Some (mkSpan "1" [] []))) oneList.

(** A context with a redirect, as in the first scenario of
    [TestHandlers_makeResponse]; [d] is its output data. *)
Definition redirected (op : Operation) (d : option output) : bcontext :=
  mkBContext noSpan
    (mkRequest op EmptyIdentity EmptyIdentity 0
               (Some {[ "X-Fields" := ["name"; "ID"] ]}))
    0 0 [] d "http://ici".

(** A cleaner that returns fresh bytes and leaves its argument alone, as
    the cleaner of the test does. *)
Definition modified : TraceCleaner :=
  fun _ _ => mkCleaned [] (bytes_of "modified").

(** A cleaner that masks in place: it overwrites the first byte of the
    slice it is given and returns that slice. *)
Definition maskFirst : TraceCleaner :=
  fun _ data =>
    mkCleaned [(0%nat, "*"%byte)] (<[0%nat := "*"%byte]> data).

(** The relationship queries of the session over the test model: a query
    with a parent looks the pair up, a query without one asks under the
    root; the nil registry allows nothing. *)
Definition allowedUnder (op : Operation)
    (reg : option (Identity -> Identity -> Operation -> bool))
    (i parent : Identity) : bool :=
  match reg with
  | Some r => r i parent op
  | None => false
  end.

Definition allowedAlone (op : Operation)
    (reg : option (Identity -> Identity -> Operation -> bool))
    (i : Identity) : bool :=
  allowedUnder op reg i RootIdentity.

Definition testSession
    : WS.wsAPISession (Identity -> Identity -> Operation -> bool) :=
  WS.mkSession _ {[ 0 := testRelationships; 1 := testRelationships ]}.

(** A dispatcher that panics with the text of the panic test. *)
Definition panics (v : panic_value) : dispatcher :=
  fun ctx => (ctx, Panicked v).

(** ** Notions used in the statements *)

(** The status [makeResponse] derives before it looks at the output data. *)
Definition derivedStatus (ctx : bcontext) : Z :=
  if Z.eqb (c_statusCode ctx) 0
  then defaultStatus (req_Operation (c_request ctx))
  else c_statusCode ctx.

(** The fields [makeResponse] gathers before the body: the count of a
    RetrieveMany or Info, then the messages if there are any. *)
Definition shapedFields (ctx : bcontext) : list logField :=
  ((if String.eqb (req_Operation (c_request ctx)) OperationRetrieveMany
       || String.eqb (req_Operation (c_request ctx)) OperationInfo
    then [LogInt "count-total" (c_count ctx)] else [])
   ++ (if (0 <? length (c_messages ctx))%nat
       then [LogObjectStrings "messages" (c_messages ctx)] else []))%list.

(** A cleaner that never stores into the slice it is given. *)
Definition quiet (cleaner : option TraceCleaner) : Prop :=
  match cleaner with
  | None => True
  | Some clean => forall i d, cl_stores (clean i d) = []
  end.

(** The output handed to the encoder for output data [d] of a request. *)
Definition encodedOutput (r : Request) (d : output) : output :=
  if (0 <? length (requestedFields r))%nat
  then project (requestedFields r) (ResetSecretAttributesValues d)
  else ResetSecretAttributesValues d.

(** The attributes kept for [o] are those of [o] that are listed. *)
Definition keptOf (fields : list string) (o kept : identifiable) : Prop :=
  forall n, In n (map attr_name kept)
            <-> In n (map attr_name o) /\ In n fields.

(** The body expected by the last scenario of [TestHandlers_makeResponse]. *)
Definition twoListsBody : string :=
  "[{" ++ jsonString "ID" ++ ":" ++ jsonString "xxx" ++ ","
       ++ jsonString "name" ++ ":" ++ jsonString "the name" ++ "},{"
       ++ jsonString "ID" ++ ":" ++ jsonString "xxx2" ++ ","
       ++ jsonString "name" ++ ":" ++ jsonString "the name2" ++ "}]".

(** The answer of a shell that refuses: no call of the dispatcher, and a
    fresh response with status 405 and the encoded error. *)
Definition refused (ctx : bcontext) (data : bytes) : handled :=
  mkHandled 0
    (mkShaped ctx
       (setData data
          (setStatusCode StatusMethodNotAllowed (NewResponse (c_request ctx))))
       RetResponse).

(** The error a shell refuses with, as it is encoded. *)
Definition notAllowedError (ctx : bcontext) (description : string) : Error :=
  withTrace (extractSpanID (ctx_span (c_ctx ctx)))
            (NewError "Not allowed" description "bahamut"
                      StatusMethodNotAllowed).

(** The registry of the version of the request forbids [op]. *)
Definition forbids {RelationshipsRegistry : Type}
    (IsOperationAllowed :
       RelationshipsRegistry -> Identity -> Identity -> Operation -> bool)
    (cfg : config RelationshipsRegistry) (ctx : bcontext)
    (op : Operation) : Prop :=
  exists manager,
    modelManagers _ cfg !! req_Version (c_request ctx) = Some manager
    /\ IsOperationAllowed (Relationships _ manager)
         (req_Identity (c_request ctx))
         (req_ParentIdentity (c_request ctx)) op = false.

(** The seven HTTP shells, each with the operation it checks and
    dispatches. *)
Definition shells {RelationshipsRegistry : Type}
    (Encode : encodable -> bytes + string)
    (IsOperationAllowed :
       RelationshipsRegistry -> Identity -> Identity -> Operation -> bool)
    (dispatchOperation : Operation -> dispatcher)
    : list (Operation
            * (bcontext -> config RelationshipsRegistry -> selected
               -> handled)) :=
  [ (OperationRetrieveMany,
     handleRetrieveMany Encode _ IsOperationAllowed dispatchOperation);
    (OperationRetrieve,
     handleRetrieve Encode _ IsOperationAllowed dispatchOperation);
    (OperationCreate,
     handleCreate Encode _ IsOperationAllowed dispatchOperation);
    (OperationUpdate,
     handleUpdate Encode _ IsOperationAllowed dispatchOperation);
    (OperationDelete,
     handleDelete Encode _ IsOperationAllowed dispatchOperation);
    (OperationInfo,
     handleInfo Encode _ IsOperationAllowed dispatchOperation);
    (OperationPatch,
     handlePatch Encode _ IsOperationAllowed dispatchOperation) ].

(** The model manager of the version of the request, if there is one,
    allows [op] on the identity under the parent of the request. *)
Definition permits {RelationshipsRegistry : Type}
    (IsOperationAllowed :
       RelationshipsRegistry -> Identity -> Identity -> Operation -> bool)
    (cfg : config RelationshipsRegistry) (ctx : bcontext)
    (op : Operation) : bool :=
  match modelManagers _ cfg !! req_Version (c_request ctx) with
  | Some manager =>
      IsOperationAllowed (Relationships _ manager)
        (req_Identity (c_request ctx)) (req_ParentIdentity (c_request ctx)) op
  | None => false
  end.

(** ** WebSocket API session: the listen and read loops *)

Module WSLoop.

(** The credentials of a request: [request.Username], [request.Password]. *)
Record credentials := mkCredentials {
  Username : string;
  Password : string
}.

(** The first step of [listen] on a request taken from the channel: the
    token of the session ([s.GetToken()]) is written into a request that
    has no password of its own. *)
Definition backportToken (token : string) (c : credentials) : credentials :=
  if String.eqb (Password c) EmptyString then
    if negb (String.eqb token EmptyString) then mkCredentials "Bearer" token
    else c
  else c.

Section Listen.

Variable RelationshipsRegistry : Type.
Variables IsRetrieveManyAllowed IsCreateAllowed IsInfoAllowed IsPatchAllowed :
  option RelationshipsRegistry -> Identity -> Identity -> bool.
Variables IsRetrieveAllowed IsUpdateAllowed IsDeleteAllowed :
  option RelationshipsRegistry -> Identity -> bool.

(** The [switch request.Operation] of [listen]: the handler started for the
    request, through what that handler does; [None] when no case of the
    switch matches and the request is dropped. *)
Definition route (s : WS.wsAPISession RelationshipsRegistry)
    (request : Request) : option WS.action :=
  let op := req_Operation request in
  if String.eqb op OperationRetrieveMany then
    Some (WS.handleRetrieveMany _ IsRetrieveManyAllowed s request)
  else if String.eqb op OperationRetrieve then
    Some (WS.handleRetrieve _ IsRetrieveAllowed s request)
  else if String.eqb op OperationCreate then
    Some (WS.handleCreate _ IsCreateAllowed s request)
  else if String.eqb op OperationUpdate then
    Some (WS.handleUpdate _ IsUpdateAllowed s request)
  else if String.eqb op OperationDelete then
    Some (WS.handleDelete _ IsDeleteAllowed s request)
  else if String.eqb op OperationInfo then
    Some (WS.handleInfo _ IsInfoAllowed s request)
  else if String.eqb op OperationPatch then
    Some (WS.handlePatch _ IsPatchAllowed s request)
  else None.

End Listen.

(** What [websocket.JSON.Receive] gives one turn of the [read] loop: a
    decoded request, a [*json.SyntaxError] (with the request as far as it
    was filled), or any other error. *)
Inductive received :=
| RecvRequest (request : Request)
| RecvSyntaxError (request : Request)
| RecvError.

(** The case taken by the [select] that ends a turn of [read]. *)
Inductive chosen :=
| SendRequest
| StopRead.

(** What [read] has done so far: the requests sent on [s.requests] and the
    errors written to the socket, oldest first; whether [s.cancel()] was
    called; the signals sent on [s.stopAll]. *)
Record readState := mkReadState {
  queued : list Request;
  written : list (Response * Error);
  cancelled : bool;
  stopAll : nat
}.

Definition start : readState := mkReadState [] [] false 0.

Definition invalidJSON : Error :=
  NewError "Bad Request" "Invalid JSON" "bahamut" StatusBadRequest.

(** The [select] at the end of a turn, for the request of the turn. *)
Definition offer (st : readState) (request : Request) (sel : chosen)
    : readState * bool :=
  match sel with
  | SendRequest =>
      (mkReadState (queued st ++ [request])%list (written st) (cancelled st)
                   (stopAll st), true)
  | StopRead =>
      (mkReadState (queued st) (written st) true (stopAll st), false)
  end.

(** One turn of the [for] loop of [read]; the boolean tells whether the
    loop goes on. *)
Definition readTurn (st : readState) (recv : received) (sel : chosen)
    : readState * bool :=
  match recv with
  | RecvError =>
      (mkReadState (queued st) (written st) true (S (stopAll st)), false)
  | RecvSyntaxError request =>
      let st :=
        mkReadState (queued st)
                    (written st ++ [(NewResponse request, invalidJSON)])%list
                    (cancelled st) (stopAll st) in
      offer st request sel
  | RecvRequest request => offer st request sel
  end.

(** The loop over what the socket and the [select] give, turn by turn,
    until a turn returns. *)
Fixpoint read (st : readState) (turns : list (received * chosen))
    : readState * bool :=
  match turns with
  | [] => (st, true)
  | (recv, sel) :: rest =>
      match readTurn st recv sel with
      | (st', true) => read st' rest
      | (st', false) => (st', false)
      end
  end.

(** The request a turn puts on the channel, if its [select] sends. *)
Definition intake (turn : received * chosen) : list Request :=
  match turn with
  | (RecvRequest request, SendRequest) => [request]
  | (RecvSyntaxError request, SendRequest) => [request]
  | _ => []
  end.

(** The error a turn writes to the socket. *)
Definition refusal (turn : received * chosen) : list (Response * Error) :=
  match turn with
  | (RecvSyntaxError request, _) => [(NewResponse request, invalidJSON)]
  | _ => []
  end.

(** A turn after which the loop goes on. *)
Definition goesOn (turn : received * chosen) : bool :=
  match turn with
  | (RecvError, _) => false
  | (_, StopRead) => false
  | _ => true
  end.

(** A turn whose receive failed with something else than a syntax error. *)
Definition failed (turn : received * chosen) : bool :=
  match turn with
  | (RecvError, _) => true
  | _ => false
  end.

(** The turns [read] plays: up to and with the first turn after which the
    loop does not go on. *)
Fixpoint played (turns : list (received * chosen))
    : list (received * chosen) :=
  match turns with
  | [] => []
  | turn :: rest => if goesOn turn then turn :: played rest else [turn]
  end.

End WSLoop.

(** What a session handler may end with, for its own operation [op]. *)
Definition handles (op : Operation) (request : Request) (a : WS.action)
    : Prop :=
  a = WS.RunWSDispatcher (NewResponse request) op
  \/ exists description,
      a = WS.WriteWebSocketError (NewResponse request)
            (NewError "Not allowed" description "bahamut"
                      StatusMethodNotAllowed).

(** * Properties *)

(** ** The scenarios of the tests

    The embedding run on inputs of handlers_test.go, with the JSON rendering
    as encoder. *)

(** [TestHandlers_makeErrorResponse]: an error that is not an elemental one
    comes out as a 500 with its text as description. *)
Example makeErrorResponse_paf :
  let out :=
    makeErrorResponse jsonEncode noSpan (NewResponse NewRequest)
                      (ErrOther "paf") in
  snd out = RetResponse
  /\ resp_StatusCode (fst out) = 500
  /\ string_of (resp_Data (fst out))
     = jsonText (EncErrors [mkError 500 "paf" "elemental"
                                    "Internal Server Error" "unknown"]).
Proof. cbv zeta. repeat split; vm_compute; reflexivity. Qed.

(** [TestHandlers_runDispatcher]: a dispatcher that returns nil on a fresh
    context is called once and answered with 204. *)
Example runDispatcher_nil :
  let run :=
    runDispatcher jsonEncode (newContext noSpan NewRequest)
                  (NewResponse NewRequest) (fun ctx => (ctx, Returned None))
                  true None SelRecv in
  h_calls run = 1%nat
  /\ sh_ret (h_result run) = RetResponse
  /\ resp_StatusCode (sh_response (h_result run)) = 204.
Proof. cbv zeta. repeat split. Qed.

(** Scenario S1: RetrieveMany of users under the root with no processor
    calls the dispatcher once and answers 501. *)
Example handleRetrieveMany_S1 :
  let request :=
    mkRequest OperationRetrieveMany UserIdentity RootIdentity 0 (Some ∅) in
  let answer :=
    handleRetrieveMany jsonEncode _ testIsOperationAllowed notImplemented
                       (newContext noSpan request) testConfig SelRecv in
  h_calls answer = 1%nat
  /\ string_of (resp_Data (sh_response (h_result answer)))
     = jsonText
         (EncErrors
            [mkError 501 "No handler for operation retrieve-many on user"
                     "bahamut" "Not implemented" "unknown"]).
Proof. cbv zeta. split; vm_compute; reflexivity. Qed.

(** Scenario S2: RetrieveMany of users under a user is answered 405 and
    the dispatcher is not called. *)
Example handleRetrieveMany_S2 :
  let answer :=
    handleRetrieveMany jsonEncode _ testIsOperationAllowed notImplemented
                       (newContext noSpan (userUnderUser OperationRetrieveMany))
                       testConfig SelRecv in
  h_calls answer = 0%nat
  /\ resp_StatusCode (sh_response (h_result answer)) = 405
  /\ string_of (resp_Data (sh_response (h_result answer)))
     = jsonText
         (EncErrors
            [mkError 405 "RetrieveMany operation not allowed on users"
                     "bahamut" "Not allowed" "unknown"]).
Proof. cbv zeta. repeat split; vm_compute; reflexivity. Qed.

(** ** Processor registry *)

Section RegistrySpec.

Variable Processor : Type.
Implicit Types (b : Registry.server Processor) (identity : Identity).

Lemma RegisterProcessor_taken b p identity :
  is_Some (Registry.processors _ b !! Name identity) ->
  Registry.RegisterProcessor _ b p identity
  = (Some (Registry.AlreadyRegistered identity), b).
Proof.
  intros [q Hq]. unfold Registry.RegisterProcessor. by rewrite Hq.
Qed.

Lemma RegisterProcessor_free b p identity :
  Registry.processors _ b !! Name identity = None ->
  Registry.RegisterProcessor _ b p identity
  = (None,
     Registry.mkServer _ (<[Name identity := p]> (Registry.processors _ b))).
Proof.
  intros Hq. unfold Registry.RegisterProcessor. by rewrite Hq.
Qed.

Lemma ProcessorForIdentity_registered b p identity :
  Registry.processors _ b !! Name identity = Some p ->
  Registry.ProcessorForIdentity _ b identity = (p, None).
Proof.
  intros Hq. unfold Registry.ProcessorForIdentity. by rewrite Hq.
Qed.

End RegistrySpec.

(** C9.  [RegisterProcessor] returns an error exactly when a processor is
    already registered under [identity.Name]; on that error the registry is
    the one it was; on success [ProcessorForIdentity] for the same identity
    gives back the processor that was registered, with no error. *)
Theorem RegisterProcessor_duplicate_iff :
  forall (Processor : Type) (b : Registry.server Processor)
         (p : option Processor) (identity : Identity),
    let err := fst (Registry.RegisterProcessor _ b p identity) in
    let b' := snd (Registry.RegisterProcessor _ b p identity) in
    (err <> None <-> is_Some (Registry.processors _ b !! Name identity))
    /\ (err <> None -> b' = b)
    /\ (err = None -> Registry.ProcessorForIdentity _ b' identity = (p, None)).
Proof.
  intros Processor b p identity.
  destruct (Registry.processors _ b !! Name identity) as [q|] eqn:Hq.
  - rewrite (RegisterProcessor_taken _ b p identity) by (rewrite Hq; eauto).
    cbn. repeat split; eauto; done.
  - rewrite (RegisterProcessor_free _ b p identity Hq). cbn.
    split; [split; [done | by intros [q Hq']] |].
    split; [done |].
    intros _. apply ProcessorForIdentity_registered. cbn.
    apply lookup_insert_eq.
Qed.

(** A run of C9 on the empty registry: the first registration of [user]
    succeeds and is found again, the second is refused and changes nothing. *)
Lemma RegisterProcessor_duplicate_iff_witness :
  let b0 := Registry.NewServer nat in
  let b1 := snd (Registry.RegisterProcessor _ b0 (Some 7%nat) UserIdentity) in
  Registry.ProcessorForIdentity _ b1 UserIdentity = (Some 7%nat, None)
  /\ snd (Registry.RegisterProcessor _ b1 (Some 8%nat) UserIdentity) = b1.
Proof.
  split.
  - apply (RegisterProcessor_duplicate_iff nat (Registry.NewServer nat)
             (Some 7%nat) UserIdentity).
    reflexivity.
  - apply (RegisterProcessor_duplicate_iff nat
             (snd (Registry.RegisterProcessor _ (Registry.NewServer nat)
                     (Some 7%nat) UserIdentity))
             (Some 8%nat) UserIdentity).
    vm_compute. discriminate.
Defined.

(** ** NATS publisher *)

(** C10.  While the client is nil, [Publish] returns an error and the bus
    is as it was; so it is when the publication cannot be encoded. *)
Theorem Publish_dropped :
  forall (Conn Msg Ctx : Type)
         (Encode : Nats.Publication -> bytes + string)
         (connPublish : Conn -> string -> bytes -> Nats.bus
                        -> option error * Nats.bus)
         (connRequest : Conn -> option Ctx -> string -> bytes -> Nats.bus
                        -> (Msg + error) * Nats.bus)
         (p : Nats.natsPubSub Conn) (publication : Nats.Publication)
         (opts : list (Nats.PubSubOptPublish Msg Ctx)) (b : Nats.bus),
    let result :=
      Nats.Publish Conn Msg Ctx Encode connPublish connRequest
                   p publication opts b in
    (Nats.client _ p = None -> fst result <> None /\ snd result = b)
    /\ (forall msg, Encode publication = inr msg ->
                    fst result <> None /\ snd result = b).
Proof.
  intros. subst result. unfold Nats.Publish. split.
  - intros ->. by cbn.
  - intros msg Henc. destruct (Nats.client Conn p); rewrite ?Henc; by cbn.
Qed.

(** A client that is never connected, on a bus that would take anything:
    the publication is refused and the bus stays empty. *)
Lemma Publish_dropped_witness :
  let result :=
    Nats.Publish unit unit unit
      (fun pub => inl (Nats.Data pub))
      (fun _ topic data b => (None, b ++ [(topic, data)])%list)
      (fun _ _ topic data b => (inl tt, b ++ [(topic, data)])%list)
      (Nats.mkNatsPubSub unit None)
      (Nats.mkPublication "events" (bytes_of "payload")) [] [] in
  fst result <> None /\ snd result = [].
Proof.
  apply (Publish_dropped unit unit unit
           (fun pub => inl (Nats.Data pub))
           (fun _ topic data b => (None, b ++ [(topic, data)])%list)
           (fun _ _ topic data b => (inl tt, b ++ [(topic, data)])%list)
           (Nats.mkNatsPubSub unit None)
           (Nats.mkPublication "events" (bytes_of "payload")) [] []).
  reflexivity.
Defined.

(** ** Push server *)

Section PushSpec.

Import Push.
Implicit Types (srv : pushServer) (s : PushSession).

Lemma register_present srv s :
  is_Some (sessions srv !! id s) -> register s srv = srv.
Proof. intros [x Hx]. unfold register. by rewrite Hx. Qed.

Lemma register_absent srv s :
  sessions srv !! id s = None ->
  register s srv
  = mkPushServer (<[id s := s]> (sessions srv))
                 (notify (OnPushSessionStart s) (handler srv)).
Proof. intros Hx. unfold register. by rewrite Hx. Qed.

Lemma registered_after_register srv s :
  is_Some (sessions (register s srv) !! id s).
Proof.
  destruct (sessions srv !! id s) as [x|] eqn:Hx.
  - rewrite register_present; rewrite Hx; eauto.
  - rewrite register_absent by done. cbn. rewrite lookup_insert_eq. eauto.
Qed.

Lemma unregister_absent srv s :
  sessions srv !! id s = None -> unregister s srv = srv.
Proof. intros Hx. unfold unregister. by rewrite Hx. Qed.

Lemma unregistered_after_unregister srv s :
  sessions (unregister s srv) !! id s = None.
Proof.
  unfold unregister. destruct (sessions srv !! id s) as [x|] eqn:Hx.
  - cbn. apply lookup_delete_eq.
  - done.
Qed.

End PushSpec.

(** C8.  Registering a session twice is registering it once: one entry
    more than before in the session set, under the identifier of the
    session, and one start told to the session handler.  Unregistering a
    session that is not registered changes nothing, and so does a second
    unregistration. *)
Theorem register_unregister_idempotent :
  forall (srv : Push.pushServer) (s : Push.PushSession),
    Push.register s (Push.register s srv) = Push.register s srv
    /\ (Push.sessions srv !! Push.id s = None ->
        let twice := Push.register s (Push.register s srv) in
        Push.sessions twice !! Push.id s = Some s
        /\ size (Push.sessions twice) = S (size (Push.sessions srv))
        /\ Push.handler twice
           = Push.notify (Push.OnPushSessionStart s) (Push.handler srv))
    /\ (Push.sessions srv !! Push.id s = None -> Push.unregister s srv = srv)
    /\ Push.unregister s (Push.unregister s srv) = Push.unregister s srv.
Proof.
  intros srv s.
  assert (Hidem : Push.register s (Push.register s srv) = Push.register s srv)
    by (apply register_present, registered_after_register).
  split; [exact Hidem |]. split; [| split].
  - intros Hx. cbv zeta. rewrite Hidem, (register_absent srv s Hx). cbn.
    split; [apply lookup_insert_eq |].
    split; [by apply map_size_insert_None | done].
  - apply unregister_absent.
  - apply unregister_absent, unregistered_after_unregister.
Qed.

(** The two scenarios of [TestSession_registerSession]: one session in the
    set and one session counted by the handler after two registrations;
    none after a registration and two unregistrations. *)
Lemma register_unregister_idempotent_witness :
  let s := Push.mkPushSession "session-1" in
  let srv := Push.newPushServer true in
  let twice := Push.run srv [Push.Register s; Push.Register s] in
  let gone := Push.run srv [Push.Register s; Push.Unregister s;
                            Push.Unregister s] in
  (size (Push.sessions twice) = 1%nat
   /\ (Push.sessionCount <$> Push.handler twice) = Some 1)
  /\ (size (Push.sessions gone) = 0%nat
      /\ (Push.sessionCount <$> Push.handler gone) = Some 0).
Proof.
  pose (s := Push.mkPushSession "session-1").
  pose (srv := Push.newPushServer true).
  destruct (register_unregister_idempotent srv s)
    as (_ & Hreg & _ & _).
  destruct (register_unregister_idempotent (Push.register s srv) s)
    as (_ & _ & _ & Hunreg).
  specialize (Hreg eq_refl). cbv zeta in Hreg.
  destruct Hreg as (_ & Hsize & Hhandler).
  split.
  - cbn [Push.run fold_left Push.step]. fold s srv.
    rewrite Hsize, Hhandler. split; reflexivity.
  - cbn [Push.run fold_left Push.step]. fold s srv.
    rewrite Hunreg. split; vm_compute; reflexivity.
Defined.

(** ** Response shaping *)

Section ShapingSpec.

Variable Encode : encodable -> bytes + string.
Implicit Types (ctx : bcontext) (response : Response)
         (cleaner : option TraceCleaner).

Lemma makeResponse_on_redirect ctx response cleaner :
  c_redirect ctx <> EmptyString ->
  makeResponse Encode ctx response cleaner
  = mkShaped ctx (setRedirect (c_redirect ctx) response) RetResponse.
Proof.
  intros Hred. unfold makeResponse.
  destruct (String.eqb_spec (c_redirect ctx) EmptyString); done.
Qed.

Lemma makeResponse_StatusCode ctx response cleaner :
  c_redirect ctx = EmptyString ->
  resp_StatusCode (sh_response (makeResponse Encode ctx response cleaner))
  = match c_outputData ctx with
    | None => StatusNoContent
    | Some _ => derivedStatus ctx
    end.
Proof.
  intros Hred. unfold makeResponse, derivedStatus. rewrite Hred.
  cbn [String.eqb negb].
  destruct (c_outputData ctx) as [d|]; [| reflexivity].
  cbn [resp_StatusCode setStatusCode].
  repeat case_match; reflexivity.
Qed.

(** The body after a successful encoding: the encoded bytes, with the
    stores of the cleaner applied to them. *)
Lemma makeResponse_Data ctx response cleaner d data :
  c_redirect ctx = EmptyString ->
  c_outputData ctx = Some d ->
  Encode (EncOutput (encodedOutput (c_request ctx) d)) = inl data ->
  resp_Data (sh_response (makeResponse Encode ctx response cleaner))
  = match cleaner with
    | None => data
    | Some clean =>
        fst (store_all
               (cl_stores (clean (req_Identity (resp_Request response)) data))
               data)
    end.
Proof.
  intros Hred Hout Henc. unfold encodedOutput in Henc.
  unfold makeResponse. rewrite Hred, Hout. cbn [String.eqb negb].
  rewrite Henc. destruct cleaner as [clean|]; [| reflexivity].
  cbn [resp_StatusCode setStatusCode].
  destruct (String.eqb _ OperationRetrieveMany || String.eqb _ OperationInfo);
    destruct (0 <? length (c_messages ctx))%nat;
    destruct (Z.eqb (c_statusCode ctx) 0);
    cbn [resp_Request setData setStatusCode setTotal setMessages];
    destruct (store_all _ data) as [shared ok]; destruct ok; reflexivity.
Qed.

Lemma makeResponse_Data_quiet ctx response cleaner d data :
  c_redirect ctx = EmptyString ->
  c_outputData ctx = Some d ->
  quiet cleaner ->
  Encode (EncOutput (encodedOutput (c_request ctx) d)) = inl data ->
  resp_Data (sh_response (makeResponse Encode ctx response cleaner)) = data.
Proof.
  intros Hred Hout Hquiet Henc.
  rewrite (makeResponse_Data _ _ _ d data) by done.
  destruct cleaner as [clean|]; [| done]. by rewrite Hquiet.
Qed.

End ShapingSpec.

Lemma defaultStatus_cases (op : Operation) :
  (op = OperationCreate -> defaultStatus op = 201)
  /\ (op = OperationInfo -> defaultStatus op = 204)
  /\ (op <> OperationCreate -> op <> OperationInfo -> defaultStatus op = 200).
Proof.
  unfold defaultStatus. repeat split.
  - by intros ->.
  - by intros ->.
  - intros Hc Hi.
    destruct (String.eqb_spec op OperationCreate); [done |].
    destruct (String.eqb_spec op OperationInfo); done.
Qed.

(** C6.  With a redirect on the context, [makeResponse] sets the redirect
    on the response and returns it: the status code, the total, the
    messages, the body and the request of the response are the ones it had,
    the context and its span are untouched, and the encoder has no part in
    the result. *)
Theorem makeResponse_redirect :
  forall (Encode : encodable -> bytes + string) (ctx : bcontext)
         (response : Response) (cleaner : option TraceCleaner),
    c_redirect ctx <> EmptyString ->
    let out := makeResponse Encode ctx response cleaner in
    sh_ret out = RetResponse
    /\ sh_ctx out = ctx
    /\ resp_Redirect (sh_response out) = c_redirect ctx
    /\ resp_StatusCode (sh_response out) = resp_StatusCode response
    /\ resp_Total (sh_response out) = resp_Total response
    /\ resp_Messages (sh_response out) = resp_Messages response
    /\ resp_Data (sh_response out) = resp_Data response
    /\ resp_Request (sh_response out) = resp_Request response
    /\ forall Encode', makeResponse Encode' ctx response cleaner = out.
Proof.
  intros Encode ctx response cleaner Hred out. subst out.
  rewrite makeResponse_on_redirect by done. cbn.
  repeat split. intros Encode'. by rewrite makeResponse_on_redirect.
Qed.

(** Scenario S4: the redirect [http://ici] lands on a fresh response, whose
    status code and body stay zero and empty. *)
Lemma makeResponse_redirect_witness :
  let out :=
    makeResponse jsonEncode (redirected OperationEmpty None)
                 (NewResponse NewRequest) None in
  resp_Redirect (sh_response out) = "http://ici"
  /\ resp_StatusCode (sh_response out) = 0
  /\ resp_Data (sh_response out) = [].
Proof.
  destruct (makeResponse_redirect jsonEncode (redirected OperationEmpty None)
              (NewResponse NewRequest) None)
    as (_ & _ & Hredirect & Hstatus & _ & _ & Hdata & _).
  - discriminate.
  - cbv zeta. rewrite Hredirect, Hstatus, Hdata. repeat split.
Defined.

(** C2, as the code has it.  When the context carries no redirect: with
    no output data the status of the response is 204, whatever status the
    context carries; with output data and status 0 on the context, it is
    201 for Create, 204 for Info and 200 for any other operation. *)
Theorem makeResponse_status :
  forall (Encode : encodable -> bytes + string) (ctx : bcontext)
         (response : Response) (cleaner : option TraceCleaner),
    c_redirect ctx = EmptyString ->
    let status :=
      resp_StatusCode (sh_response (makeResponse Encode ctx response cleaner)) in
    let op := req_Operation (c_request ctx) in
    (c_outputData ctx = None -> status = 204)
    /\ (c_outputData ctx <> None -> c_statusCode ctx = 0 ->
        (op = OperationCreate -> status = 201)
        /\ (op = OperationInfo -> status = 204)
        /\ (op <> OperationCreate -> op <> OperationInfo -> status = 200)).
Proof.
  intros Encode ctx response cleaner Hred status op. subst status op.
  rewrite makeResponse_StatusCode by done. split.
  - by intros ->.
  - intros Hout Hzero. destruct (c_outputData ctx); [| done].
    unfold derivedStatus. rewrite Hzero. cbn [Z.eqb].
    apply defaultStatus_cases.
Qed.

(** Scenario S3 and the first scenario of the status test: Create with
    status 201 on the context and no output data ends at 204; Create with
    status 0 and output data ends at 201. *)
Lemma makeResponse_status_witness :
  let created :=
    mkBContext noSpan (mkRequest OperationCreate EmptyIdentity EmptyIdentity
                                 0 (Some ∅)) in
  resp_StatusCode
    (sh_response (makeResponse jsonEncode (created 201 0 [] None EmptyString)
                               (NewResponse NewRequest) None)) = 204
  /\ resp_StatusCode
       (sh_response
          (makeResponse jsonEncode
             (created 0 0 [] (Some (OtherData "[]")) EmptyString)
             (NewResponse NewRequest) None)) = 201.
Proof.
  cbv zeta. split.
  - refine (proj1 (makeResponse_status jsonEncode _ _ None _) _); reflexivity.
  - refine (proj1 (proj2 (makeResponse_status jsonEncode _ _ None _) _ _) _);
      first [reflexivity | cbn; discriminate].
Defined.

(** C2 as stated fails on a context with a redirect: with status 0 on the
    context, operation Create and output data, the status of a fresh
    response stays 0, not 201; and with no output data it stays 0, not
    204. *)
Lemma makeResponse_status_counterexample :
  c_statusCode (redirected OperationCreate (Some (OtherData "[]"))) = 0
  /\ resp_StatusCode
       (sh_response
          (makeResponse jsonEncode
             (redirected OperationCreate (Some (OtherData "[]")))
             (NewResponse NewRequest) None)) = 0
  /\ c_outputData (redirected OperationCreate None) = None
  /\ resp_StatusCode
       (sh_response
          (makeResponse jsonEncode (redirected OperationCreate None)
                        (NewResponse NewRequest) None)) = 0.
Proof. repeat split. Qed.

(** *** Sparse projection *)

Lemma listed_In (fields : list string) (n : string) :
  listed fields n = true <-> In n fields.
Proof.
  unfold listed. rewrite existsb_exists. split.
  - intros (x & Hx & Heq). apply String.eqb_eq in Heq. by subst.
  - intros Hn. exists n. split; [done | apply String.eqb_refl].
Qed.

Lemma resetSecrets_names (o : identifiable) :
  map attr_name (resetSecrets o) = map attr_name o.
Proof.
  unfold resetSecrets. rewrite map_map. apply map_ext.
  intros a. by destruct (attr_secret a).
Qed.

Lemma ToSparse_names (fields : list string) (o : identifiable) (n : string) :
  fields <> [] ->
  In n (map attr_name (ToSparse fields o))
  <-> In n (map attr_name o) /\ In n fields.
Proof.
  intros Hne. unfold ToSparse. destruct fields as [|f fields]; [done |].
  rewrite !in_map_iff. split.
  - intros (a & Hn & Ha). apply filter_In in Ha as [Ha Hl].
    apply listed_In in Hl. subst n. eauto.
  - intros ((a & Hn & Ha) & Hl). exists a. split; [done |].
    apply filter_In. split; [done |]. apply listed_In. by subst n.
Qed.

Lemma sparse_keptOf (fields : list string) (o : identifiable) :
  fields <> [] -> keptOf fields o (ToSparse fields (resetSecrets o)).
Proof.
  intros Hne n. rewrite ToSparse_names by done.
  by rewrite resetSecrets_names.
Qed.

Lemma encodedOutput_fields (r : Request) (d : output) :
  requestedFields r <> [] ->
  encodedOutput r d = project (requestedFields r) (ResetSecretAttributesValues d).
Proof.
  intros Hne. unfold encodedOutput.
  destruct (requestedFields r); [done | reflexivity].
Qed.

(** C5, as the code has it.  When the context carries no redirect, the
    request lists fields under [X-Fields] and the trace cleaner, if any,
    does not store into its argument: for output data that is a plain
    identifiable, the body of the response is the encoding of its sparse
    projection, whose attributes are exactly the attributes of the
    identifiable that are listed; for a list of plain identifiables, the
    body is the encoding of the list of their projections.  For the two
    lists of the test and [X-Fields: name, ID] the JSON body is
    [[{"ID":"xxx","name":"the name"},{"ID":"xxx2","name":"the name2"}]]. *)
Theorem makeResponse_sparse :
  (forall (Encode : encodable -> bytes + string) (ctx : bcontext)
          (response : Response) (cleaner : option TraceCleaner)
          (fields : list string),
      c_redirect ctx = EmptyString ->
      quiet cleaner ->
      requestedFields (c_request ctx) = fields ->
      fields <> [] ->
      let body :=
        resp_Data (sh_response (makeResponse Encode ctx response cleaner)) in
      (forall o data,
          c_outputData ctx = Some (PlainIdentifiable o) ->
          let kept := ToSparse fields (resetSecrets o) in
          Encode (EncOutput (SparseIdentifiable kept)) = inl data ->
          body = data /\ keptOf fields o kept)
      /\ (forall os data,
          c_outputData ctx = Some (PlainIdentifiables os) ->
          let kept := map (ToSparse fields) (map resetSecrets os) in
          Encode (EncOutput (SparseIdentifiables kept)) = inl data ->
          body = data /\ Forall2 (keptOf fields) os kept))
  /\ string_of
       (resp_Data
          (sh_response
             (makeResponse jsonEncode twoLists (NewResponse xfieldsRequest)
                           None)))
     = twoListsBody.
Proof.
  split; [| vm_compute; reflexivity].
  intros Encode ctx response cleaner fields Hred Hquiet Hfields Hne body.
  subst body fields. split.
  - intros o data Hout kept Henc. subst kept. split.
    + apply makeResponse_Data_quiet with (d := PlainIdentifiable o); try done.
      by rewrite encodedOutput_fields.
    + by apply sparse_keptOf.
  - intros os data Hout kept Henc. subst kept. split.
    + apply makeResponse_Data_quiet with (d := PlainIdentifiables os);
        try done.
      by rewrite encodedOutput_fields.
    + clear Hout Henc. induction os as [|o os IH]; cbn [map].
      * constructor.
      * constructor; [by apply sparse_keptOf | exact IH].
Qed.

(** The single list of the test under [X-Fields: name, ID]: the body is
    the JSON object with [ID] and [name], and the description is gone. *)
Lemma makeResponse_sparse_witness :
  string_of
    (resp_Data
       (sh_response
          (makeResponse jsonEncode oneList (NewResponse xfieldsRequest) None)))
  = "{" ++ jsonString "ID" ++ ":" ++ jsonString "xxx" ++ ","
        ++ jsonString "name" ++ ":" ++ jsonString "the name" ++ "}"
  /\ keptOf ["name"; "ID"] (testList "the name" "xxx" " the description")
            (ToSparse ["name"; "ID"]
               (resetSecrets (testList "the name" "xxx" " the description"))).
Proof.
  destruct (proj1 makeResponse_sparse jsonEncode oneList
              (NewResponse xfieldsRequest) None ["name"; "ID"])
    as [Hone _]; [reflexivity | exact I | vm_compute; reflexivity
                 | discriminate |].
  destruct (Hone (testList "the name" "xxx" " the description")
                 (bytes_of ("{" ++ jsonString "ID" ++ ":" ++ jsonString "xxx"
                                ++ "," ++ jsonString "name" ++ ":"
                                ++ jsonString "the name" ++ "}")))
    as [Hbody Hkept]; [reflexivity | vm_compute; reflexivity |].
  split; [| exact Hkept].
  rewrite Hbody. vm_compute. reflexivity.
Defined.

(** C5 as stated fails on a context with a redirect: the request lists
    [name] and [ID], the output data is the list of two identifiables, and
    the response comes back with an empty body. *)
Lemma makeResponse_sparse_counterexample :
  let ctx :=
    redirected OperationEmpty
      (Some (PlainIdentifiables
               [ testList "the name" "xxx" " the description";
                 testList "the name2" "xxx2" " the description2" ])) in
  let out := makeResponse jsonEncode ctx (NewResponse (c_request ctx)) None in
  requestedFields (c_request ctx) = ["name"; "ID"]
  /\ sh_ret out = RetResponse
  /\ resp_Data (sh_response out) = [].
Proof. cbv zeta. repeat split; vm_compute; reflexivity. Qed.

(** *** Trace cleaner *)

(** A cleaner that does not store into its argument leaves the body as
    encoded, and what it returns is the [response] field logged on the
    span, after the count and the messages. *)
Lemma makeResponse_quiet_cleaner
    (Encode : encodable -> bytes + string) (ctx : bcontext)
    (response : Response) (clean : TraceCleaner) (d : output) (data : bytes)
    (span : Span) :
  c_redirect ctx = EmptyString ->
  c_outputData ctx = Some d ->
  ctx_span (c_ctx ctx) = Some span ->
  quiet (Some clean) ->
  Encode (EncOutput (encodedOutput (c_request ctx) d)) = inl data ->
  let out := makeResponse Encode ctx response (Some clean) in
  resp_Data (sh_response out) = data
  /\ (span_fields <$> ctx_span (c_ctx (sh_ctx out)))
     = Some (span_fields span ++ shapedFields ctx
               ++ [LogObjectString "response"
                     (string_of
                        (cl_result
                           (clean (req_Identity (resp_Request response))
                                  data)))])%list.
Proof.
  intros Hred Hout Hspan Hquiet Henc out. subst out. split.
  - by apply makeResponse_Data_quiet with (d := d).
  - unfold encodedOutput in Henc.
    unfold makeResponse, shapedFields. rewrite Hred, Hout.
    cbn [String.eqb negb].
    rewrite Henc. cbn [resp_StatusCode setStatusCode].
    destruct (String.eqb _ OperationRetrieveMany || String.eqb _ OperationInfo);
      destruct (0 <? length (c_messages ctx))%nat;
      destruct (Z.eqb (c_statusCode ctx) 0);
      cbn [resp_Request setData setStatusCode setTotal setMessages];
      rewrite (Hquiet _ data); cbn [store_all];
      unfold logSpan, SpanFromContext;
      cbn [c_ctx setOutputData sh_ctx]; rewrite Hspan;
      cbn [c_ctx setCtx ctx_span fmap option_fmap option_map LogFields SetTag
           span_fields app];
      reflexivity.
Qed.

(** The cleaner scenario of [TestHandlers_makeResponse]: the body is the
    sparse JSON object and the span holds [response:modified]. *)
Lemma makeResponse_modified_cleaner :
  let out :=
    makeResponse jsonEncode tracedList (NewResponse xfieldsRequest)
                 (Some modified) in
  string_of (resp_Data (sh_response out))
  = "{" ++ jsonString "ID" ++ ":" ++ jsonString "xxx" ++ ","
        ++ jsonString "name" ++ ":" ++ jsonString "the name" ++ "}"
  /\ (span_fields <$> ctx_span (c_ctx (sh_ctx out)))
     = Some [LogObjectString "response" "modified"].
Proof. cbv zeta. split; vm_compute; reflexivity. Qed.

(** C7 at a cleaner that masks in place.  [data := response.Data[:]] gives
    the cleaner the array of the body itself: after [makeResponse] the body
    of the response is the masked one, not the encoding, and the span holds
    the same masked text. *)
Theorem makeResponse_cleaner_shares_body :
  let encoded :=
    bytes_of ("{" ++ jsonString "ID" ++ ":" ++ jsonString "xxx" ++ ","
                  ++ jsonString "name" ++ ":" ++ jsonString "the name" ++ "}") in
  let out :=
    makeResponse jsonEncode tracedList (NewResponse xfieldsRequest)
                 (Some maskFirst) in
  jsonEncode
    (EncOutput
       (encodedOutput xfieldsRequest
          (PlainIdentifiable (testList "the name" "xxx" " the description"))))
  = inl encoded
  /\ sh_ret out = RetResponse
  /\ resp_Data (sh_response out) = <[0%nat := "*"%byte]> encoded
  /\ resp_Data (sh_response out) <> encoded
  /\ (span_fields <$> ctx_span (c_ctx (sh_ctx out)))
     = Some [LogObjectString "response"
               (string_of (<[0%nat := "*"%byte]> encoded))].
Proof.
  cbv zeta. repeat split; try (vm_compute; reflexivity).
  vm_compute. discriminate.
Qed.

(** ** Error responses and the runner *)

Section RunnerSpec.

Variable Encode : encodable -> bytes + string.

Lemma makeErrorResponse_canceled (g : gocontext) (r : Response) :
  makeErrorResponse Encode g r ErrCanceled = (r, RetNil).
Proof. reflexivity. Qed.

Lemma makeErrorResponse_encoded (g : gocontext) (r : Response)
    (err : error) (data : bytes) :
  err <> ErrCanceled ->
  Encode (EncErrors (processError g err)) = inl data ->
  makeErrorResponse Encode g r err
  = (setData data (setStatusCode (Errors_Code (processError g err)) r),
     RetResponse).
Proof.
  intros Hne Henc. unfold makeErrorResponse.
  destruct err; try done; cbn [isCanceled]; by rewrite Henc.
Qed.

Lemma processError_elemental (g : gocontext) (e : Error) :
  processError g (ErrElemental e)
  = [withTrace (extractSpanID (ctx_span g)) e].
Proof. reflexivity. Qed.

Lemma runDispatcher_done (ctx : bcontext) (r : Response) (d : dispatcher)
    (disablePanicRecovery : bool) (cleaner : option TraceCleaner)
    (cause : cancel_cause) :
  runDispatcher Encode ctx r d disablePanicRecovery cleaner (SelDone cause)
  = mkHandled 1
      (mkShaped ctx
         (fst (makeErrorResponse Encode (c_ctx ctx) r (ctxErr cause)))
         (snd (makeErrorResponse Encode (c_ctx ctx) r (ctxErr cause)))).
Proof.
  unfold runDispatcher. by destruct (makeErrorResponse _ _ _ _).
Qed.

Lemma runDispatcher_error (ctx ctx' : bcontext) (r : Response)
    (d : dispatcher) (disablePanicRecovery : bool)
    (cleaner : option TraceCleaner) (done : completion (option error))
    (err : error) :
  d ctx = (ctx', done) ->
  dispatcherTask done disablePanicRecovery = Delivered (Some err) ->
  runDispatcher Encode ctx r d disablePanicRecovery cleaner SelRecv
  = mkHandled 1
      (mkShaped ctx'
         (fst (makeErrorResponse Encode (c_ctx ctx') r err))
         (snd (makeErrorResponse Encode (c_ctx ctx') r err))).
Proof.
  intros Hd Htask. unfold runDispatcher. rewrite Hd, Htask.
  by destruct (makeErrorResponse _ _ _ _).
Qed.

End RunnerSpec.

(** C3.  When the context is done before the dispatcher delivers, the
    result of [runDispatcher] does not depend on the dispatcher: it is nil
    for a plain cancellation, with the response left as it was, and for a
    deadline exceeded it is the response with status 408 and the encoding
    of one error of code 408.  When the dispatcher returns an error other
    than the cancellation sentinel, the result is the response with the
    code and the encoding of that error as processed. *)
Theorem runDispatcher_cancellation :
  forall (Encode : encodable -> bytes + string) (ctx : bcontext)
         (r : Response) (d : dispatcher) (disablePanicRecovery : bool)
         (cleaner : option TraceCleaner),
    let run := runDispatcher Encode ctx r d disablePanicRecovery cleaner in
    (forall cause d',
        runDispatcher Encode ctx r d' disablePanicRecovery cleaner
                      (SelDone cause)
        = run (SelDone cause))
    /\ h_result (run (SelDone Canceled)) = mkShaped ctx r RetNil
    /\ (exists e,
          processError (c_ctx ctx) ErrDeadlineExceeded = [e]
          /\ err_code e = 408
          /\ forall data,
              Encode (EncErrors [e]) = inl data ->
              h_result (run (SelDone DeadlineExceeded))
              = mkShaped ctx (setData data (setStatusCode 408 r)) RetResponse)
    /\ (forall ctx' err data,
          d ctx = (ctx', Returned (Some err)) ->
          err <> ErrCanceled ->
          Encode (EncErrors (processError (c_ctx ctx') err)) = inl data ->
          h_result (run SelRecv)
          = mkShaped ctx'
              (setData data
                 (setStatusCode (Errors_Code (processError (c_ctx ctx') err)) r))
              RetResponse).
Proof.
  intros Encode ctx r d disablePanicRecovery cleaner run. subst run.
  split; [| split; [| split]].
  - intros cause d'. by rewrite !runDispatcher_done.
  - by rewrite runDispatcher_done.
  - eexists. split; [reflexivity |]. split; [reflexivity |].
    intros data Henc. rewrite runDispatcher_done. cbn [ctxErr].
    by rewrite (makeErrorResponse_encoded Encode _ _ _ data).
  - intros ctx' err data Hd Hne Henc.
    rewrite (runDispatcher_error Encode ctx ctx' r d _ _
               (Returned (Some err)) err) by done.
    by rewrite (makeErrorResponse_encoded Encode _ _ _ data).
Qed.

(** A runner whose context reaches its deadline while the dispatcher is
    still at work: status 408; and the second scenario of
    [TestHandlers_runDispatcher], a dispatcher that returns an error of
    code 501: status 501. *)
Lemma runDispatcher_cancellation_witness :
  let ctx := newContext noSpan NewRequest in
  let run :=
    runDispatcher jsonEncode ctx (NewResponse NewRequest)
                  (notImplemented OperationRetrieve) true None in
  resp_StatusCode (sh_response (h_result (run (SelDone DeadlineExceeded))))
  = 408
  /\ resp_StatusCode (sh_response (h_result (run SelRecv))) = 501.
Proof.
  pose (ctx := newContext noSpan NewRequest).
  destruct (runDispatcher_cancellation jsonEncode ctx (NewResponse NewRequest)
              (notImplemented OperationRetrieve) true None)
    as (_ & _ & (e & He & _ & Hdeadline) & Herror).
  cbv zeta. fold ctx. split.
  - rewrite (Hdeadline (bytes_of (jsonText (EncErrors [e])))) by reflexivity.
    reflexivity.
  - erewrite Herror; [| reflexivity | discriminate | reflexivity].
    reflexivity.
Defined.

(** C4.  A panic with value [v] in the dispatcher task: with panic
    recovery on, the sentinel sends a 500 error whose description is the
    text of [v], and the runner shapes it into the response; with panic
    recovery disabled the panic leaves the sentinel, and the task, with
    [v]. *)
Theorem handleEventualPanic_recovery :
  forall (v : panic_value),
    (exists e,
        handleEventualPanic (Some v) false = Returned (Some (ErrElemental e))
        /\ err_code e = 500
        /\ err_description e = Sprint v
        /\ forall (Encode : encodable -> bytes + string) (ctx ctx' : bcontext)
                  (r : Response) (d : dispatcher)
                  (cleaner : option TraceCleaner) (data : bytes),
            d ctx = (ctx', Panicked v) ->
            Encode (EncErrors
                      [withTrace (extractSpanID (ctx_span (c_ctx ctx'))) e])
            = inl data ->
            h_result (runDispatcher Encode ctx r d false cleaner SelRecv)
            = mkShaped ctx' (setData data (setStatusCode 500 r)) RetResponse)
    /\ handleEventualPanic (Some v) true = Panicked v
    /\ dispatcherTask (Panicked v) true = Crash v
    /\ forall (Encode : encodable -> bytes + string) (ctx ctx' : bcontext)
              (r : Response) (d : dispatcher) (cleaner : option TraceCleaner),
        d ctx = (ctx', Panicked v) ->
        h_result (runDispatcher Encode ctx r d true cleaner SelRecv)
        = mkShaped ctx' r (RetPanic v).
Proof.
  intros v. split; [| split; [| split]]; try reflexivity.
  - eexists. split; [reflexivity |]. split; [reflexivity |].
    split; [reflexivity |].
    intros Encode ctx ctx' r d cleaner data Hd Henc.
    rewrite (runDispatcher_error Encode ctx ctx' r d _ _ (Panicked v)
               (ErrElemental
                  (NewError "Internal Server Error" (Sprint v) "bahamut"
                            StatusInternalServerError)))
      by done.
    by rewrite (makeErrorResponse_encoded Encode _ _ _ data).
  - intros Encode ctx ctx' r d cleaner Hd.
    unfold runDispatcher. by rewrite Hd.
Qed.

(** The panic of [TestHandlers_handleEventualPanic]: the error sent on the
    channel reads as the test expects, and the runner answers 500. *)
Lemma handleEventualPanic_recovery_witness :
  (error_text <$> match handleEventualPanic
                          (Some (PanicString "Noooooooooooooooooo")) false with
                  | Returned sent => sent
                  | Panicked _ => None
                  end)
  = Some "error 500 (bahamut): Internal Server Error: Noooooooooooooooooo"
  /\ resp_StatusCode
       (sh_response
          (h_result
             (runDispatcher jsonEncode (newContext noSpan NewRequest)
                (NewResponse NewRequest)
                (panics (PanicString "Noooooooooooooooooo")) false None
                SelRecv)))
     = 500.
Proof.
  destruct (handleEventualPanic_recovery (PanicString "Noooooooooooooooooo"))
    as ((e & Hsent & Hcode & Hdescription & Hrun) & _).
  split.
  - rewrite Hsent. vm_compute in Hsent. injection Hsent as <-.
    vm_compute. reflexivity.
  - erewrite Hrun; [reflexivity | reflexivity |].
    vm_compute in Hsent. injection Hsent as <-. vm_compute. reflexivity.
Defined.

(** ** Operations the relationships forbid *)

Section RefusalSpec.

Variable Encode : encodable -> bytes + string.
Variable RelationshipsRegistry : Type.
Variable IsOperationAllowed :
  RelationshipsRegistry -> Identity -> Identity -> Operation -> bool.
Variable dispatchOperation : Operation -> dispatcher.

Lemma shell_forbidden (op : Operation) (description : string)
    (ctx : bcontext) (cfg : config RelationshipsRegistry) (sel : selected)
    (data : bytes) :
  forbids IsOperationAllowed cfg ctx op ->
  Encode (EncErrors [notAllowedError ctx description]) = inl data ->
  shell Encode _ IsOperationAllowed dispatchOperation op description
        ctx cfg sel
  = refused ctx data.
Proof.
  intros (manager & Hm & Hno) Henc. unfold shell. rewrite Hm, Hno.
  cbn [negb].
  rewrite (makeErrorResponse_encoded Encode _ _ _ data); [done | done |].
  by rewrite processError_elemental.
Qed.

Lemma shell_allowed (op : Operation) (description : string)
    (ctx : bcontext) (cfg : config RelationshipsRegistry) (sel : selected)
    (manager : ModelManager RelationshipsRegistry) :
  modelManagers _ cfg !! req_Version (c_request ctx) = Some manager ->
  IsOperationAllowed (Relationships _ manager)
    (req_Identity (c_request ctx)) (req_ParentIdentity (c_request ctx)) op
  = true ->
  h_calls (shell Encode _ IsOperationAllowed dispatchOperation op
                 description ctx cfg sel) = 1%nat.
Proof.
  intros Hm Hyes. unfold shell. rewrite Hm, Hyes. cbn [negb].
  unfold runDispatcher. destruct sel.
  - by destruct (makeErrorResponse _ _ _ _).
  - destruct (dispatchOperation op ctx) as [ctx' done].
    destruct (dispatcherTask done _) as [[err|]| |]; try done.
    by destruct (makeErrorResponse _ _ _ _).
Qed.

(** The seven HTTP shells refuse a forbidden operation with their own
    description and never call the dispatcher. *)
Lemma http_refuses_forbidden (ctx : bcontext) (cfg : config RelationshipsRegistry)
    (sel : selected) (data : bytes) :
  let i := req_Identity (c_request ctx) in
  let encodes description :=
    Encode (EncErrors [notAllowedError ctx description]) = inl data in
  (forbids IsOperationAllowed cfg ctx OperationRetrieveMany ->
   encodes ("RetrieveMany operation not allowed on " ++ Category i) ->
   handleRetrieveMany Encode _ IsOperationAllowed dispatchOperation
                      ctx cfg sel = refused ctx data)
  /\ (forbids IsOperationAllowed cfg ctx OperationRetrieve ->
      encodes ("Retrieve operation not allowed on " ++ Name i) ->
      handleRetrieve Encode _ IsOperationAllowed dispatchOperation
                     ctx cfg sel = refused ctx data)
  /\ (forbids IsOperationAllowed cfg ctx OperationCreate ->
      encodes ("Create operation not allowed on " ++ Name i) ->
      handleCreate Encode _ IsOperationAllowed dispatchOperation
                   ctx cfg sel = refused ctx data)
  /\ (forbids IsOperationAllowed cfg ctx OperationUpdate ->
      encodes ("Update operation not allowed on " ++ Name i) ->
      handleUpdate Encode _ IsOperationAllowed dispatchOperation
                   ctx cfg sel = refused ctx data)
  /\ (forbids IsOperationAllowed cfg ctx OperationDelete ->
      encodes ("Delete operation not allowed on " ++ Name i) ->
      handleDelete Encode _ IsOperationAllowed dispatchOperation
                   ctx cfg sel = refused ctx data)
  /\ (forbids IsOperationAllowed cfg ctx OperationInfo ->
      encodes ("Info operation not allowed on " ++ Category i) ->
      handleInfo Encode _ IsOperationAllowed dispatchOperation
                 ctx cfg sel = refused ctx data)
  /\ (forbids IsOperationAllowed cfg ctx OperationPatch ->
      encodes ("Patch operation not allowed on " ++ Category i) ->
      handlePatch Encode _ IsOperationAllowed dispatchOperation
                  ctx cfg sel = refused ctx data).
Proof.
  cbv zeta. repeat split; intros; by apply shell_forbidden.
Qed.

End RefusalSpec.

Section SessionRefusalSpec.

Variable RelationshipsRegistry : Type.
Variables IsRetrieveManyAllowed IsCreateAllowed IsInfoAllowed IsPatchAllowed :
  option RelationshipsRegistry -> Identity -> Identity -> bool.
Variables IsRetrieveAllowed IsUpdateAllowed IsDeleteAllowed :
  option RelationshipsRegistry -> Identity -> bool.

(** The session handlers refuse a forbidden operation without running
    the dispatcher; six of them write the description of their HTTP
    shell, and [handlePatch] writes the name of the identity where the
    HTTP shell writes its category. *)
Lemma ws_refuses_forbidden (s : WS.wsAPISession RelationshipsRegistry)
    (request : Request) :
  let reg := WS.registryFor _ s request in
  let i := req_Identity request in
  let parent := WS.parentOrRoot request in
  let refuses description :=
    WS.notAllowed (NewResponse request) description in
  (IsRetrieveManyAllowed reg i parent = false ->
   WS.handleRetrieveMany _ IsRetrieveManyAllowed s request
   = refuses ("RetrieveMany operation not allowed on " ++ Category i))
  /\ (IsRetrieveAllowed reg i = false ->
      WS.handleRetrieve _ IsRetrieveAllowed s request
      = refuses ("Retrieve operation not allowed on " ++ Name i))
  /\ (IsCreateAllowed reg i parent = false ->
      WS.handleCreate _ IsCreateAllowed s request
      = refuses ("Create operation not allowed on " ++ Name i))
  /\ (IsUpdateAllowed reg i = false ->
      WS.handleUpdate _ IsUpdateAllowed s request
      = refuses ("Update operation not allowed on " ++ Name i))
  /\ (IsDeleteAllowed reg i = false ->
      WS.handleDelete _ IsDeleteAllowed s request
      = refuses ("Delete operation not allowed on " ++ Name i))
  /\ (IsInfoAllowed reg i parent = false ->
      WS.handleInfo _ IsInfoAllowed s request
      = refuses ("Info operation not allowed on " ++ Category i))
  /\ (IsPatchAllowed reg i parent = false ->
      WS.handlePatch _ IsPatchAllowed s request
      = refuses ("Patch operation not allowed on " ++ Name i)).
Proof.
  cbv zeta.
  unfold WS.handleRetrieveMany, WS.handleRetrieve, WS.handleCreate,
    WS.handleUpdate, WS.handleDelete, WS.handleInfo, WS.handlePatch.
  repeat split; intros ->; reflexivity.
Qed.

End SessionRefusalSpec.

(** C1 at a Patch of users under a user, which the test model forbids.
    The HTTP shell answers 405 with [Patch operation not allowed on users]
    and does not call the dispatcher; the session handler does not run the
    dispatcher either, but writes [Patch operation not allowed on user]:
    the name of the identity, not its category. *)
Theorem ws_handlePatch_names_identity :
  let request := userUnderUser OperationPatch in
  let http :=
    handlePatch jsonEncode _ testIsOperationAllowed notImplemented
                (newContext noSpan request) testConfig SelRecv in
  let ws :=
    WS.handlePatch _ (allowedUnder OperationPatch) testSession request in
  testRelationships UserIdentity UserIdentity OperationPatch = false
  /\ h_calls http = 0%nat
  /\ resp_StatusCode (sh_response (h_result http)) = 405
  /\ string_of (resp_Data (sh_response (h_result http)))
     = jsonText
         (EncErrors
            [mkError 405 "Patch operation not allowed on users" "bahamut"
                     "Not allowed" "unknown"])
  /\ WS.dispatches ws = false
  /\ ws = WS.WriteWebSocketError (NewResponse request)
            (NewError "Not allowed" "Patch operation not allowed on user"
                      "bahamut" 405)
  /\ Category (req_Identity request) = "users".
Proof.
  cbv zeta. repeat split; vm_compute; reflexivity.
Qed.

(** * Further properties of the code *)

(** ** Processor registry: removal, counting, keys *)

Section RegistryMore.

Variable Processor : Type.
Implicit Types (b : Registry.server Processor) (identity : Identity).

Lemma server_eta b : Registry.mkServer _ (Registry.processors _ b) = b.
Proof. by destruct b. Qed.

Lemma UnregisterProcessor_missing b identity :
  Registry.processors _ b !! Name identity = None ->
  Registry.UnregisterProcessor _ b identity
  = (Some (Registry.NotRegistered identity), b).
Proof. intros Hq. unfold Registry.UnregisterProcessor. by rewrite Hq. Qed.

Lemma UnregisterProcessor_present b identity :
  is_Some (Registry.processors _ b !! Name identity) ->
  Registry.UnregisterProcessor _ b identity
  = (None,
     Registry.mkServer _ (delete (Name identity) (Registry.processors _ b))).
Proof.
  intros [q Hq]. unfold Registry.UnregisterProcessor. by rewrite Hq.
Qed.

Lemma ProcessorForIdentity_missing b identity :
  Registry.processors _ b !! Name identity = None ->
  Registry.ProcessorForIdentity _ b identity
  = (None, Some (Registry.NotRegistered identity)).
Proof. intros Hq. unfold Registry.ProcessorForIdentity. by rewrite Hq. Qed.

End RegistryMore.

(** X1.  [UnregisterProcessor] returns an error exactly when nothing is
    registered under [identity.Name], and then leaves the registry as it
    was; when it succeeds, [ProcessorForIdentity] no longer finds a
    processor for any identity of that name. *)
Theorem UnregisterProcessor_missing_iff :
  forall (Processor : Type) (b : Registry.server Processor)
         (identity : Identity),
    let err := fst (Registry.UnregisterProcessor _ b identity) in
    let b' := snd (Registry.UnregisterProcessor _ b identity) in
    (err <> None <-> Registry.processors _ b !! Name identity = None)
    /\ (err <> None -> b' = b)
    /\ (err = None ->
        forall other,
          Name other = Name identity ->
          Registry.ProcessorForIdentity _ b' other
          = (None, Some (Registry.NotRegistered other))).
Proof.
  intros Processor b identity.
  destruct (Registry.processors _ b !! Name identity) as [q|] eqn:Hq.
  - rewrite (UnregisterProcessor_present _ b identity) by (rewrite Hq; eauto).
    cbn. split; [split; done |]. split; [done |].
    intros _ other Hname. apply ProcessorForIdentity_missing. cbn.
    rewrite Hname. apply lookup_delete_eq.
  - rewrite (UnregisterProcessor_missing _ b identity Hq). cbn.
    split; [split; done |]. split; done.
Qed.

(** On a registry that holds [user], unregistering it succeeds and the
    lookup then fails; unregistering it again is refused. *)
Lemma UnregisterProcessor_missing_iff_witness :
  let b1 :=
    snd (Registry.RegisterProcessor _ (Registry.NewServer nat) (Some 7%nat)
                                    UserIdentity) in
  let b2 := snd (Registry.UnregisterProcessor _ b1 UserIdentity) in
  Registry.ProcessorForIdentity _ b2 UserIdentity
  = (None, Some (Registry.NotRegistered UserIdentity))
  /\ snd (Registry.UnregisterProcessor _ b2 UserIdentity) = b2.
Proof.
  cbv zeta. split.
  - refine (proj2 (proj2 (UnregisterProcessor_missing_iff nat _ UserIdentity))
              _ UserIdentity _); reflexivity.
  - refine (proj1 (proj2 (UnregisterProcessor_missing_iff nat _ UserIdentity))
              _).
    vm_compute. discriminate.
Defined.

(** X2.  Registration and removal undo each other: registering a processor
    under a free name and unregistering it gives back the registry as it
    was, and unregistering a processor and registering it again does too;
    neither step reports an error. *)
Theorem Register_Unregister_restores :
  forall (Processor : Type) (b : Registry.server Processor)
         (p : option Processor) (identity : Identity),
    (Registry.processors _ b !! Name identity = None ->
     fst (Registry.RegisterProcessor _ b p identity) = None
     /\ Registry.UnregisterProcessor _
          (snd (Registry.RegisterProcessor _ b p identity)) identity
        = (None, b))
    /\ (Registry.processors _ b !! Name identity = Some p ->
        fst (Registry.UnregisterProcessor _ b identity) = None
        /\ Registry.RegisterProcessor _
             (snd (Registry.UnregisterProcessor _ b identity)) p identity
           = (None, b)).
Proof.
  intros Processor b p identity. split; intros Hq.
  - rewrite (RegisterProcessor_free _ b p identity Hq). cbn [fst snd].
    split; [done |].
    rewrite UnregisterProcessor_present
      by (cbn; rewrite lookup_insert_eq; eauto).
    cbn. by rewrite delete_insert_id, server_eta.
  - rewrite (UnregisterProcessor_present _ b identity) by (rewrite Hq; eauto).
    cbn [fst snd]. split; [done |].
    rewrite RegisterProcessor_free by (cbn; apply lookup_delete_eq).
    cbn. by rewrite insert_delete_id, server_eta.
Qed.

(** On the empty registry: register [user], unregister it, and the
    registry is empty again. *)
Lemma Register_Unregister_restores_witness :
  Registry.UnregisterProcessor _
    (snd (Registry.RegisterProcessor _ (Registry.NewServer nat) (Some 7%nat)
                                     UserIdentity))
    UserIdentity
  = (None, Registry.NewServer nat).
Proof.
  refine (proj2 (proj1 (Register_Unregister_restores nat
                          (Registry.NewServer nat) (Some 7%nat) UserIdentity)
                       _)).
  reflexivity.
Defined.

(** X3.  [ProcessorsCount] goes up by one at each registration that
    succeeds and down by one at each removal that succeeds; a refused
    registration or removal leaves it as it was. *)
Theorem ProcessorsCount_follows :
  forall (Processor : Type) (b : Registry.server Processor)
         (p : option Processor) (identity : Identity),
    let registered := Registry.RegisterProcessor _ b p identity in
    let removed := Registry.UnregisterProcessor _ b identity in
    Registry.ProcessorsCount _ (snd registered)
    = match fst registered with
      | Some _ => Registry.ProcessorsCount _ b
      | None => S (Registry.ProcessorsCount _ b)
      end
    /\ Registry.ProcessorsCount _ b
       = match fst removed with
         | Some _ => Registry.ProcessorsCount _ (snd removed)
         | None => S (Registry.ProcessorsCount _ (snd removed))
         end.
Proof.
  intros Processor b p identity. cbv zeta. unfold Registry.ProcessorsCount.
  destruct (Registry.processors _ b !! Name identity) as [q|] eqn:Hq.
  - rewrite (RegisterProcessor_taken _ b p identity) by (rewrite Hq; eauto).
    rewrite (UnregisterProcessor_present _ b identity) by (rewrite Hq; eauto).
    cbn. split; [done |].
    rewrite map_size_delete_Some by (rewrite Hq; eauto).
    assert (size (Registry.processors _ b) <> 0%nat); [| lia].
    intros Hz. apply map_size_empty_inv in Hz. rewrite Hz in Hq.
    by rewrite lookup_empty in Hq.
  - rewrite (RegisterProcessor_free _ b p identity Hq).
    rewrite (UnregisterProcessor_missing _ b identity Hq).
    cbn. split; [| done]. by apply map_size_insert_None.
Qed.

(** X4.  The registry is keyed by the name of the identity alone.  After a
    processor is registered for an identity, any identity of the same name,
    whatever its category, finds that processor and cannot be registered
    again; an identity of another name is looked up, registered and removed
    as before. *)
Theorem registry_keyed_by_Name :
  forall (Processor : Type) (b : Registry.server Processor)
         (p q : option Processor) (identity other : Identity),
    let b' := snd (Registry.RegisterProcessor _ b p identity) in
    (Name other = Name identity ->
     fst (Registry.RegisterProcessor _ b p identity) = None ->
     Registry.ProcessorForIdentity _ b' other = (p, None)
     /\ Registry.RegisterProcessor _ b' q other
        = (Some (Registry.AlreadyRegistered other), b'))
    /\ (Name other <> Name identity ->
        Registry.ProcessorForIdentity _ b' other
        = Registry.ProcessorForIdentity _ b other
        /\ fst (Registry.RegisterProcessor _ b' q other)
           = fst (Registry.RegisterProcessor _ b q other)
        /\ fst (Registry.UnregisterProcessor _ b' other)
           = fst (Registry.UnregisterProcessor _ b other)).
Proof.
  intros Processor b p q identity other. cbv zeta.
  destruct (Registry.processors _ b !! Name identity) as [r|] eqn:Hq.
  - rewrite (RegisterProcessor_taken _ b p identity) by (rewrite Hq; eauto).
    cbn [fst snd]. split; [done |]. by intros _.
  - rewrite (RegisterProcessor_free _ b p identity Hq). cbn [fst snd]. split.
    + intros Hname _. split.
      * apply ProcessorForIdentity_registered. cbn. rewrite Hname.
        apply lookup_insert_eq.
      * apply RegisterProcessor_taken. cbn. rewrite Hname, lookup_insert_eq.
        eauto.
    + intros Hname.
      unfold Registry.ProcessorForIdentity, Registry.RegisterProcessor,
        Registry.UnregisterProcessor.
      cbn [Registry.processors].
      rewrite lookup_insert_ne by done.
      by destruct (Registry.processors _ b !! Name other).
Qed.

(** [user] registered with category [users]: an identity named [user] with
    the category [people] finds the same processor and is refused. *)
Lemma registry_keyed_by_Name_witness :
  let b' :=
    snd (Registry.RegisterProcessor _ (Registry.NewServer nat) (Some 7%nat)
                                    UserIdentity) in
  Registry.ProcessorForIdentity _ b' (mkIdentity "user" "people")
  = (Some 7%nat, None)
  /\ fst (Registry.RegisterProcessor _ b' (Some 8%nat)
                                     (mkIdentity "user" "people"))
     = Some (Registry.AlreadyRegistered (mkIdentity "user" "people")).
Proof.
  destruct (proj1 (registry_keyed_by_Name nat (Registry.NewServer nat)
                     (Some 7%nat) (Some 8%nat) UserIdentity
                     (mkIdentity "user" "people")))
    as [Hfound Hrefused]; [reflexivity | reflexivity |].
  cbv zeta. rewrite Hfound, Hrefused. split; reflexivity.
Defined.

(** ** Response shaping: what is copied, what is logged, when it panics *)

(** Case analysis along the branches of [makeResponse] once the redirect
    is known to be empty. *)
Ltac shaping Hred :=
  unfold makeResponse; rewrite Hred; cbn [String.eqb negb];
  cbn [resp_StatusCode setStatusCode];
  repeat match goal with
         | |- context [match c_outputData ?c with _ => _ end] =>
             destruct (c_outputData c) eqn:?
         | |- context [match ?E (EncOutput ?d) with _ => _ end] =>
             destruct (E (EncOutput d)) eqn:?
         | |- context [match ?cl with Some _ => _ | None => _ end] =>
             is_var cl; destruct cl
         | |- context [let '(_, _) := store_all ?s ?d in _] =>
             let ok := fresh "ok" in
             destruct (store_all s d) as [? ok] eqn:?; destruct ok
         end.

Ltac split_ifs :=
  repeat match goal with
         | |- context [if ?b then _ else _] => destruct b eqn:?
         end.

Lemma counted_iff (op : Operation) :
  String.eqb op OperationRetrieveMany || String.eqb op OperationInfo = true
  <-> op = OperationRetrieveMany \/ op = OperationInfo.
Proof.
  rewrite orb_true_iff, !String.eqb_eq. tauto.
Qed.

Lemma makeResponse_Total_eq (Encode : encodable -> bytes + string)
    (ctx : bcontext) (response : Response) (cleaner : option TraceCleaner) :
  c_redirect ctx = EmptyString ->
  resp_Total (sh_response (makeResponse Encode ctx response cleaner))
  = if String.eqb (req_Operation (c_request ctx)) OperationRetrieveMany
       || String.eqb (req_Operation (c_request ctx)) OperationInfo
    then c_count ctx else resp_Total response.
Proof.
  intros Hred. shaping Hred.
  all: cbn [sh_response resp_Total setData setStatusCode].
  all: split_ifs; reflexivity.
Qed.

(** X5.  Without a redirect, [makeResponse] copies the count of the context
    to the total of the response for a RetrieveMany or an Info, and for
    these only: for any other operation the total of the response is the
    one it had. *)
Theorem makeResponse_Total :
  forall (Encode : encodable -> bytes + string) (ctx : bcontext)
         (response : Response) (cleaner : option TraceCleaner),
    c_redirect ctx = EmptyString ->
    let op := req_Operation (c_request ctx) in
    let total :=
      resp_Total (sh_response (makeResponse Encode ctx response cleaner)) in
    (op = OperationRetrieveMany \/ op = OperationInfo -> total = c_count ctx)
    /\ (op <> OperationRetrieveMany -> op <> OperationInfo ->
        total = resp_Total response).
Proof.
  intros Encode ctx response cleaner Hred op total. subst op total.
  rewrite makeResponse_Total_eq by done.
  destruct (String.eqb _ OperationRetrieveMany || String.eqb _ OperationInfo)
    eqn:Hc.
  - split; [done |]. apply counted_iff in Hc. tauto.
  - split; [| done]. intros Hop. apply counted_iff in Hop. congruence.
Qed.

(** The count scenarios of [TestHandlers_makeResponse]: with count 42 on the
    context the total is 42 for a RetrieveMany and stays 0 for a Create. *)
Lemma makeResponse_Total_witness :
  let counting op :=
    mkBContext noSpan (mkRequest op EmptyIdentity EmptyIdentity 0 (Some ∅))
               0 42 [] None EmptyString in
  let total op :=
    resp_Total
      (sh_response (makeResponse jsonEncode (counting op)
                                 (NewResponse NewRequest) None)) in
  total OperationRetrieveMany = 42 /\ total OperationCreate = 0.
Proof.
  cbv zeta. split.
  - refine (proj1 (makeResponse_Total jsonEncode _ _ None _) _);
      [reflexivity | by left].
  - refine (proj2 (makeResponse_Total jsonEncode _ _ None _) _ _);
      first [reflexivity | discriminate].
Defined.

(** X6.  Without a redirect, [makeResponse] replaces the messages of the
    response by those of the context when the context has some, and leaves
    them alone when it has none; it never touches the request nor the
    redirect of the response. *)
Theorem makeResponse_Messages :
  forall (Encode : encodable -> bytes + string) (ctx : bcontext)
         (response : Response) (cleaner : option TraceCleaner),
    c_redirect ctx = EmptyString ->
    let out := sh_response (makeResponse Encode ctx response cleaner) in
    (c_messages ctx <> [] -> resp_Messages out = c_messages ctx)
    /\ (c_messages ctx = [] -> resp_Messages out = resp_Messages response)
    /\ resp_Request out = resp_Request response
    /\ resp_Redirect out = resp_Redirect response.
Proof.
  intros Encode ctx response cleaner Hred out. subst out.
  assert (Hlen : (0 <? length (c_messages ctx))%nat
                 = negb (bool_decide (c_messages ctx = []))).
  { destruct (c_messages ctx); reflexivity. }
  repeat split.
  - intros Hsome. shaping Hred.
    all: cbn [sh_response resp_Messages setData setStatusCode setTotal].
    all: rewrite Hlen, bool_decide_eq_false_2 by done.
    all: cbn [negb]; split_ifs; reflexivity.
  - intros Hnone. shaping Hred.
    all: cbn [sh_response resp_Messages setData setStatusCode setTotal].
    all: rewrite Hlen, bool_decide_eq_true_2 by done.
    all: cbn [negb]; split_ifs; reflexivity.
  - shaping Hred.
    all: cbn [sh_response resp_Request setData setStatusCode].
    all: split_ifs; reflexivity.
  - shaping Hred.
    all: cbn [sh_response resp_Redirect setData setStatusCode].
    all: split_ifs; reflexivity.
Qed.

(** The message scenario of [TestHandlers_makeResponse]. *)
Lemma makeResponse_Messages_witness :
  resp_Messages
    (sh_response
       (makeResponse jsonEncode
          (mkBContext noSpan NewRequest 0 0 ["hello world"] None EmptyString)
          (NewResponse NewRequest) None))
  = ["hello world"].
Proof.
  refine (proj1 (makeResponse_Messages jsonEncode _ _ None _) _);
    [reflexivity | discriminate].
Defined.

(** X7.  [makeResponse] never returns nil and never blocks.  It panics only
    without a redirect and with output data, and then either because the
    encoder failed, with the text [unable to encode output data:] followed
    by the text of the encoder, or because the trace cleaner stored beyond
    the body; whenever the encoder fails on the output, it does panic. *)
Theorem makeResponse_panics_only :
  forall (Encode : encodable -> bytes + string) (ctx : bcontext)
         (response : Response) (cleaner : option TraceCleaner),
    let out := makeResponse Encode ctx response cleaner in
    sh_ret out <> RetNil
    /\ sh_ret out <> RetBlocked
    /\ (forall v,
          sh_ret out = RetPanic v ->
          c_redirect ctx = EmptyString
          /\ exists d,
              c_outputData ctx = Some d
              /\ ((exists msg,
                      Encode (EncOutput (encodedOutput (c_request ctx) d))
                      = inr msg
                      /\ v = PanicError
                               (ErrOther
                                  ("unable to encode output data: " ++ msg)))
                  \/ (v = indexOutOfRange /\ ~ quiet cleaner)))
    /\ (forall d msg,
          c_redirect ctx = EmptyString ->
          c_outputData ctx = Some d ->
          Encode (EncOutput (encodedOutput (c_request ctx) d)) = inr msg ->
          sh_ret out
          = RetPanic (PanicError
                        (ErrOther ("unable to encode output data: " ++ msg)))).
Proof.
  intros Encode ctx response cleaner out. subst out.
  destruct (String.eqb_spec (c_redirect ctx) EmptyString) as [Hred|Hred].
  2: { rewrite makeResponse_on_redirect by done. cbn.
       repeat split; try done. }
  unfold encodedOutput.
  split; [shaping Hred; done |]. split; [shaping Hred; done |]. split.
  - intros v Hv. split; [done |]. revert Hv.
    shaping Hred; cbn [sh_ret]; try done.
    + intros [= <-]. eexists. split; [reflexivity |]. right.
      split; [done |]. cbn. intros Hquiet.
      match goal with
      | Hs : store_all _ _ = _ |- _ =>
          rewrite Hquiet in Hs; cbn [store_all] in Hs; congruence
      end.
    + intros [= <-]. eexists. split; [reflexivity |]. left. eauto.
  - intros d msg _ Hout Henc.
    shaping Hred; cbn [sh_ret]; simplify_eq; congruence.
Qed.

(** An encoder that refuses everything: a context with output data makes
    [makeResponse] panic with the text of the encoder. *)
Lemma makeResponse_panics_only_witness :
  sh_ret
    (makeResponse (fun _ => inr "unsupported") oneList
                  (NewResponse xfieldsRequest) None)
  = RetPanic (PanicError
                (ErrOther "unable to encode output data: unsupported")).
Proof.
  refine (proj2 (proj2 (proj2
            (makeResponse_panics_only (fun _ => inr "unsupported") oneList
               (NewResponse xfieldsRequest) None)))
            _ "unsupported" _ _ _); reflexivity.
Defined.

(** X8.  Without a redirect and with a span on the context, the deferred
    call of [makeResponse] always runs, also when it panics: the span gets
    the tag [status.code] with the status the response ends with, and its
    fields grow by the count and the messages, followed by the [response]
    field only when a body was encoded and the response returned.  With no
    span the Go context is left as it was. *)
Theorem makeResponse_span :
  forall (Encode : encodable -> bytes + string) (ctx : bcontext)
         (response : Response) (cleaner : option TraceCleaner),
    c_redirect ctx = EmptyString ->
    let out := makeResponse Encode ctx response cleaner in
    (forall span,
        ctx_span (c_ctx ctx) = Some span ->
        exists tail,
          ctx_span (c_ctx (sh_ctx out))
          = Some (mkSpan (span_id span)
                    (span_fields span ++ shapedFields ctx ++ tail)%list
                    (span_tags span
                       ++ [("status.code",
                            resp_StatusCode (sh_response out))])%list)
          /\ (tail = []
              \/ exists text,
                  tail = [LogObjectString "response" text]
                  /\ sh_ret out = RetResponse
                  /\ c_outputData ctx <> None))
    /\ (ctx_span (c_ctx ctx) = None -> c_ctx (sh_ctx out) = c_ctx ctx).
Proof.
  intros Encode ctx response cleaner Hred out. subst out. split.
  - intros span Hspan. shaping Hred.
    all: unfold logSpan, SpanFromContext, shapedFields, LogFields, SetTag.
    all: cbn [c_ctx setOutputData setCtx sh_ctx sh_response sh_ret ctx_span].
    all: rewrite Hspan.
    all: cbn [c_ctx setOutputData setCtx sh_ctx sh_response sh_ret ctx_span
              span_id span_fields span_tags].
    all: split_ifs.
    all: first
           [ by (exists []; split;
                 [cbn [app]; rewrite ?app_nil_r; reflexivity | left])
           | by (eexists [_]; split;
                 [cbn [app]; reflexivity
                 | right; eexists; split; [reflexivity | done]]) ].
  - intros Hspan. shaping Hred.
    all: unfold logSpan, SpanFromContext.
    all: cbn [c_ctx setOutputData sh_ctx]; by rewrite Hspan.
Qed.

(** The cleaner scenario of the test again, for the tag: the span ends
    with [response:modified] and [status.code] 200. *)
Lemma makeResponse_span_witness :
  ctx_span
    (c_ctx
       (sh_ctx
          (makeResponse jsonEncode tracedList (NewResponse xfieldsRequest)
                        (Some modified))))
  = Some (mkSpan "1" [LogObjectString "response" "modified"]
                 [("status.code", 200)]).
Proof.
  destruct (proj1 (makeResponse_span jsonEncode tracedList
                     (NewResponse xfieldsRequest) (Some modified) eq_refl)
                  (mkSpan "1" [] []) eq_refl)
    as (tail & Hspan & _).
  rewrite Hspan. vm_compute in Hspan. injection Hspan as <-.
  vm_compute. reflexivity.
Defined.

(** X9.  [makeResponse] reads the context without changing its request,
    status code, count, messages or redirect; a context with no output
    data still has none afterwards, and output data that is not an
    identifiable is left as it is. *)
Theorem makeResponse_context_frame :
  forall (Encode : encodable -> bytes + string) (ctx : bcontext)
         (response : Response) (cleaner : option TraceCleaner),
    let ctx' := sh_ctx (makeResponse Encode ctx response cleaner) in
    c_request ctx' = c_request ctx
    /\ c_statusCode ctx' = c_statusCode ctx
    /\ c_count ctx' = c_count ctx
    /\ c_messages ctx' = c_messages ctx
    /\ c_redirect ctx' = c_redirect ctx
    /\ (c_outputData ctx = None <-> c_outputData ctx' = None)
    /\ (forall v,
          c_outputData ctx = Some (OtherData v) ->
          c_outputData ctx' = Some (OtherData v)).
Proof.
  intros Encode ctx response cleaner ctx'. subst ctx'.
  destruct (String.eqb_spec (c_redirect ctx) EmptyString) as [Hred|Hred].
  2: { rewrite makeResponse_on_redirect by done. cbn. repeat split; done. }
  assert (Hframe : forall fields r c,
             c_request (logSpan c fields r) = c_request c
             /\ c_statusCode (logSpan c fields r) = c_statusCode c
             /\ c_count (logSpan c fields r) = c_count c
             /\ c_messages (logSpan c fields r) = c_messages c
             /\ c_redirect (logSpan c fields r) = c_redirect c
             /\ c_outputData (logSpan c fields r) = c_outputData c).
  { intros fields r c. unfold logSpan.
    by destruct (SpanFromContext (c_ctx c)). }
  assert (Hother : forall v,
             (if (0 <? length (requestedFields (c_request ctx)))%nat
              then project (requestedFields (c_request ctx))
                           (ResetSecretAttributesValues (OtherData v))
              else ResetSecretAttributesValues (OtherData v))
             = OtherData v).
  { intros v. by destruct (0 <? length _)%nat. }
  split; [| split; [| split; [| split; [| split; [| split]]]]].
  1-5: shaping Hred; cbn [sh_ctx];
       match goal with
       | |- _ (logSpan ?c ?f ?r) = _ =>
           destruct (Hframe f r c) as (? & ? & ? & ? & ? & ?); by etrans
       end.
  - shaping Hred; cbn [sh_ctx];
      match goal with
      | |- _ <-> c_outputData (logSpan ?c ?f ?r) = _ =>
          destruct (Hframe f r c) as (_ & _ & _ & _ & _ & ->)
      end; cbn [c_outputData setOutputData]; split; congruence.
  - intros v Hv.
    shaping Hred; cbn [sh_ctx];
      match goal with
      | |- c_outputData (logSpan ?c ?f ?r) = _ =>
          destruct (Hframe f r c) as (_ & _ & _ & _ & _ & ->)
      end; cbn [c_outputData setOutputData]; simplify_eq;
      by rewrite ?Hother.
Qed.

(** ** Error responses, the runner and the shells *)

(** X10.  [makeErrorResponse] returns nil exactly for [context.Canceled],
    and then leaves the response untouched.  For any other error it sets
    the status code of the response to the code of the processed error
    before encoding, and it panics only when the encoder fails, with the
    text [unable to encode error:] followed by the text of the encoder. *)
Theorem makeErrorResponse_nil_iff :
  forall (Encode : encodable -> bytes + string) (g : gocontext)
         (r : Response) (err : error),
    let out := makeErrorResponse Encode g r err in
    (snd out = RetNil <-> err = ErrCanceled)
    /\ (err = ErrCanceled -> fst out = r)
    /\ (err <> ErrCanceled ->
        resp_StatusCode (fst out) = Errors_Code (processError g err)
        /\ snd out <> RetBlocked
        /\ forall v,
            snd out = RetPanic v <->
            exists msg,
              Encode (EncErrors (processError g err)) = inr msg
              /\ v = PanicError (ErrOther ("unable to encode error: " ++ msg))).
Proof.
  intros Encode g r err out. subst out. unfold makeErrorResponse.
  assert (Hcases : err = ErrCanceled
                   \/ (err <> ErrCanceled /\ isCanceled err = false))
    by (destruct err; auto).
  destruct Hcases as [->|[Hne Hnot]].
  { cbn. repeat split; done. }
  rewrite Hnot.
  destruct (Encode (EncErrors (processError g err))) as [data|msg] eqn:Henc;
    cbn [fst snd resp_StatusCode setData setStatusCode].
  - split; [split; done |]. split; [done |]. intros _.
    split; [reflexivity |]. split; [done |]. intros v. split; [done |].
    by intros (msg & Hmsg & _).
  - split; [split; done |]. split; [done |]. intros _.
    split; [reflexivity |]. split; [done |]. intros v. split.
    + intros [= <-]. eauto.
    + intros (msg' & [= <-] & ->). reflexivity.
Qed.

(** [TestHandlers_makeErrorResponse]: nil for the cancellation sentinel,
    and a panic with the text of an encoder that refuses the errors. *)
Lemma makeErrorResponse_nil_iff_witness :
  snd (makeErrorResponse jsonEncode noSpan (NewResponse NewRequest)
                         ErrCanceled) = RetNil
  /\ snd (makeErrorResponse (fun _ => inr "unsupported") noSpan
                            (NewResponse NewRequest) (ErrOther "paf"))
     = RetPanic (PanicError (ErrOther "unable to encode error: unsupported")).
Proof.
  split.
  - by apply (proj1 (makeErrorResponse_nil_iff jsonEncode noSpan
                       (NewResponse NewRequest) ErrCanceled)).
  - apply (proj2 (proj2 (makeErrorResponse_nil_iff
                           (fun _ => inr "unsupported") noSpan
                           (NewResponse NewRequest) (ErrOther "paf")))).
    + discriminate.
    + eexists. split; reflexivity.
Defined.

(** X11.  [runDispatcher] answers nil, the sign not to write anything, in
    two cases only: the context was cancelled (not timed out) before the
    dispatcher delivered, or the dispatcher itself returned
    [context.Canceled] as its error. *)
Theorem runDispatcher_nil_iff :
  forall (Encode : encodable -> bytes + string) (ctx : bcontext)
         (r : Response) (d : dispatcher) (disablePanicRecovery : bool)
         (cleaner : option TraceCleaner),
    let answer sel :=
      sh_ret (h_result (runDispatcher Encode ctx r d disablePanicRecovery
                                      cleaner sel)) in
    (forall cause, answer (SelDone cause) = RetNil <-> cause = Canceled)
    /\ (forall ctx' err,
          d ctx = (ctx', Returned err) ->
          (answer SelRecv = RetNil <-> err = Some ErrCanceled)).
Proof.
  intros Encode ctx r d disablePanicRecovery cleaner answer. subst answer.
  split.
  - intros cause. rewrite runDispatcher_done. cbn [h_result sh_ret].
    rewrite (proj1 (makeErrorResponse_nil_iff Encode _ _ _)).
    by destruct cause.
  - intros ctx' err Hd. destruct err as [err|].
    + rewrite (runDispatcher_error Encode ctx ctx' r d _ _
                 (Returned (Some err)) err) by done.
      cbn [h_result sh_ret].
      rewrite (proj1 (makeErrorResponse_nil_iff Encode _ _ _)).
      split; congruence.
    + unfold runDispatcher. rewrite Hd. cbn [dispatcherTask h_result].
      split; [| done]. intros Hnil.
      by destruct (proj1 (makeResponse_panics_only Encode ctx' r cleaner)).
Qed.

(** A dispatcher that hands back [context.Canceled] while its context is
    still live: the runner answers nil; one that hands back a timeout does
    not. *)
Lemma runDispatcher_nil_iff_witness :
  let answer err :=
    sh_ret
      (h_result
         (runDispatcher jsonEncode (newContext noSpan NewRequest)
            (NewResponse NewRequest) (fun ctx => (ctx, Returned (Some err)))
            false None SelRecv)) in
  answer ErrCanceled = RetNil /\ answer ErrDeadlineExceeded <> RetNil.
Proof.
  cbv zeta. split.
  - by apply (proj2 (runDispatcher_nil_iff jsonEncode _ _
                       (fun ctx => (ctx, Returned (Some ErrCanceled)))
                       false None) _ _ eq_refl).
  - intros Hnil.
    by apply (proj2 (runDispatcher_nil_iff jsonEncode _ _
                       (fun ctx => (ctx, Returned (Some ErrDeadlineExceeded)))
                       false None) _ _ eq_refl) in Hnil.
Defined.

(** X12.  Each of the seven HTTP shells calls its dispatcher once when the
    model manager of the version of the request allows its operation, and
    never otherwise.  When no model manager is configured for that version,
    the shell panics on the nil manager before it writes anything into the
    response. *)
Theorem shells_call_iff_allowed :
  forall (RelationshipsRegistry : Type)
         (Encode : encodable -> bytes + string)
         (IsOperationAllowed :
            RelationshipsRegistry -> Identity -> Identity -> Operation -> bool)
         (dispatchOperation : Operation -> dispatcher)
         (op : Operation)
         (handle : bcontext -> config RelationshipsRegistry -> selected
                   -> handled),
    In (op, handle) (shells Encode IsOperationAllowed dispatchOperation) ->
    forall ctx cfg sel,
      h_calls (handle ctx cfg sel)
      = (if permits IsOperationAllowed cfg ctx op then 1 else 0)%nat
      /\ (modelManagers _ cfg !! req_Version (c_request ctx) = None ->
          h_result (handle ctx cfg sel)
          = mkShaped ctx (NewResponse (c_request ctx))
                     (RetPanic nilDereference)).
Proof.
  intros R Encode Is dispatchOperation op handle Hin ctx cfg sel.
  assert (Hshell : forall description,
             h_calls (shell Encode R Is dispatchOperation op description
                            ctx cfg sel)
             = (if permits Is cfg ctx op then 1 else 0)%nat
             /\ (modelManagers _ cfg !! req_Version (c_request ctx) = None ->
                 h_result (shell Encode R Is dispatchOperation op description
                                 ctx cfg sel)
                 = mkShaped ctx (NewResponse (c_request ctx))
                            (RetPanic nilDereference))).
  { intros description. unfold permits.
    destruct (modelManagers _ cfg !! req_Version (c_request ctx))
      as [manager|] eqn:Hm.
    - split; [| done].
      destruct (Is (Relationships _ manager) _ _ op) eqn:Hallowed.
      + by apply shell_allowed with (manager := manager).
      + unfold shell. rewrite Hm, Hallowed. cbn [negb].
        by destruct (makeErrorResponse _ _ _ _).
    - unfold shell. rewrite Hm. by split. }
  unfold shells in Hin. cbn [In] in Hin.
  repeat (destruct Hin as [[= <- <-]|Hin]; [apply Hshell |]).
  done.
Qed.

(** The two scenarios of [TestHandlers_handleCreate] for the number of
    calls, and a request for a version the configuration does not know. *)
Lemma shells_call_iff_allowed_witness :
  let calls request :=
    h_calls (handleCreate jsonEncode _ testIsOperationAllowed notImplemented
                          (newContext noSpan request) testConfig SelRecv) in
  calls (mkRequest OperationCreate UserIdentity RootIdentity 0 (Some ∅))
  = 1%nat
  /\ calls (userUnderUser OperationCreate) = 0%nat
  /\ calls (mkRequest OperationCreate UserIdentity RootIdentity 7 (Some ∅))
     = 0%nat.
Proof.
  assert (Hin : In (OperationCreate,
                    handleCreate jsonEncode _ testIsOperationAllowed
                                 notImplemented)
                   (shells jsonEncode testIsOperationAllowed notImplemented)).
  { cbn. tauto. }
  cbv zeta. split; [| split].
  - by rewrite (proj1 (shells_call_iff_allowed _ _ _ _ _ _ Hin _ testConfig
                         SelRecv)).
  - by rewrite (proj1 (shells_call_iff_allowed _ _ _ _ _ _ Hin _ testConfig
                         SelRecv)).
  - by rewrite (proj1 (shells_call_iff_allowed _ _ _ _ _ _ Hin _ testConfig
                         SelRecv)).
Defined.

(** ** WebSocket API session *)

(** X13.  The session handlers and the parent of a request.  Retrieve,
    Update and Delete run their dispatcher exactly when the registry allows
    the operation on the identity and the request names no parent: a
    request with a parent is refused whatever the registry says.
    RetrieveMany, Create, Info and Patch ask the registry with the parent
    of the request, or with the root when the request names none. *)
Theorem ws_parent_rules :
  forall (RelationshipsRegistry : Type)
         (IsRetrieveManyAllowed IsCreateAllowed IsInfoAllowed IsPatchAllowed :
            option RelationshipsRegistry -> Identity -> Identity -> bool)
         (IsRetrieveAllowed IsUpdateAllowed IsDeleteAllowed :
            option RelationshipsRegistry -> Identity -> bool)
         (s : WS.wsAPISession RelationshipsRegistry) (request : Request),
    let reg := WS.registryFor _ s request in
    let i := req_Identity request in
    let orphan := IsEmpty (req_ParentIdentity request) in
    let parent :=
      if orphan then RootIdentity else req_ParentIdentity request in
    WS.dispatches (WS.handleRetrieve _ IsRetrieveAllowed s request)
    = IsRetrieveAllowed reg i && orphan
    /\ WS.dispatches (WS.handleUpdate _ IsUpdateAllowed s request)
       = IsUpdateAllowed reg i && orphan
    /\ WS.dispatches (WS.handleDelete _ IsDeleteAllowed s request)
       = IsDeleteAllowed reg i && orphan
    /\ WS.dispatches (WS.handleRetrieveMany _ IsRetrieveManyAllowed s request)
       = IsRetrieveManyAllowed reg i parent
    /\ WS.dispatches (WS.handleCreate _ IsCreateAllowed s request)
       = IsCreateAllowed reg i parent
    /\ WS.dispatches (WS.handleInfo _ IsInfoAllowed s request)
       = IsInfoAllowed reg i parent
    /\ WS.dispatches (WS.handlePatch _ IsPatchAllowed s request)
       = IsPatchAllowed reg i parent.
Proof.
  intros. subst reg i orphan parent.
  unfold WS.handleRetrieve, WS.handleUpdate, WS.handleDelete,
    WS.handleRetrieveMany, WS.handleCreate, WS.handleInfo, WS.handlePatch,
    WS.parentOrRoot, WS.notAllowed.
  destruct (IsEmpty (req_ParentIdentity request)); cbn [negb].
  all: split; [by destruct (IsRetrieveAllowed _ _) |].
  all: split; [by destruct (IsUpdateAllowed _ _) |].
  all: split; [by destruct (IsDeleteAllowed _ _) |].
  all: split; [by destruct (IsRetrieveManyAllowed _ _ _) |].
  all: split; [by destruct (IsCreateAllowed _ _ _) |].
  all: split; [by destruct (IsInfoAllowed _ _ _) |].
  all: by destruct (IsPatchAllowed _ _ _).
Qed.

Section ListenSpec.

Variable RelationshipsRegistry : Type.
Variables IsRetrieveManyAllowed IsCreateAllowed IsInfoAllowed IsPatchAllowed :
  option RelationshipsRegistry -> Identity -> Identity -> bool.
Variables IsRetrieveAllowed IsUpdateAllowed IsDeleteAllowed :
  option RelationshipsRegistry -> Identity -> bool.

Lemma handlers_handle (s : WS.wsAPISession RelationshipsRegistry)
    (request : Request) :
  handles OperationRetrieveMany request
    (WS.handleRetrieveMany _ IsRetrieveManyAllowed s request)
  /\ handles OperationRetrieve request
       (WS.handleRetrieve _ IsRetrieveAllowed s request)
  /\ handles OperationCreate request
       (WS.handleCreate _ IsCreateAllowed s request)
  /\ handles OperationUpdate request
       (WS.handleUpdate _ IsUpdateAllowed s request)
  /\ handles OperationDelete request
       (WS.handleDelete _ IsDeleteAllowed s request)
  /\ handles OperationInfo request
       (WS.handleInfo _ IsInfoAllowed s request)
  /\ handles OperationPatch request
       (WS.handlePatch _ IsPatchAllowed s request).
Proof.
  unfold handles, WS.handleRetrieveMany, WS.handleRetrieve, WS.handleCreate,
    WS.handleUpdate, WS.handleDelete, WS.handleInfo, WS.handlePatch,
    WS.notAllowed.
  repeat match goal with
         | |- _ /\ _ => split
         end.
  all: match goal with
       | |- context [if ?b then _ else _] => destruct b
       end; eauto.
Qed.

Lemma route_cases (s : WS.wsAPISession RelationshipsRegistry)
    (request : Request) :
  match WSLoop.route _ IsRetrieveManyAllowed IsCreateAllowed IsInfoAllowed
                     IsPatchAllowed IsRetrieveAllowed IsUpdateAllowed
                     IsDeleteAllowed s request with
  | Some a =>
      In (req_Operation request)
         [OperationRetrieveMany; OperationRetrieve; OperationCreate;
          OperationUpdate; OperationDelete; OperationInfo; OperationPatch]
      /\ handles (req_Operation request) request a
  | None =>
      ~ In (req_Operation request)
           [OperationRetrieveMany; OperationRetrieve; OperationCreate;
            OperationUpdate; OperationDelete; OperationInfo; OperationPatch]
  end.
Proof.
  destruct (handlers_handle s request) as (H1 & H2 & H3 & H4 & H5 & H6 & H7).
  unfold WSLoop.route. cbv zeta.
  repeat match goal with
         | |- context [String.eqb ?a ?b] =>
             destruct (String.eqb_spec a b) as [->|?]
         end.
  all: try (split; [cbn; tauto | assumption]).
  cbn. intuition congruence.
Qed.

End ListenSpec.

(** X14.  [listen] starts a handler exactly for the seven operations and
    drops a request with any other operation.  The handler it starts never
    dispatches an operation other than the one the request names: it either
    runs the dispatcher of that operation on a fresh response bound to the
    request, or writes a 405 [Not allowed] error for that response. *)
Theorem listen_routes_by_operation :
  forall (RelationshipsRegistry : Type)
         (IsRetrieveManyAllowed IsCreateAllowed IsInfoAllowed IsPatchAllowed :
            option RelationshipsRegistry -> Identity -> Identity -> bool)
         (IsRetrieveAllowed IsUpdateAllowed IsDeleteAllowed :
            option RelationshipsRegistry -> Identity -> bool)
         (s : WS.wsAPISession RelationshipsRegistry) (request : Request),
    let routed :=
      WSLoop.route _ IsRetrieveManyAllowed IsCreateAllowed IsInfoAllowed
                   IsPatchAllowed IsRetrieveAllowed IsUpdateAllowed
                   IsDeleteAllowed s request in
    let known :=
      In (req_Operation request)
         [OperationRetrieveMany; OperationRetrieve; OperationCreate;
          OperationUpdate; OperationDelete; OperationInfo; OperationPatch] in
    (routed = None <-> ~ known)
    /\ (forall response op,
          routed = Some (WS.RunWSDispatcher response op) ->
          op = req_Operation request /\ response = NewResponse request)
    /\ (forall response err,
          routed = Some (WS.WriteWebSocketError response err) ->
          response = NewResponse request
          /\ err_code err = 405 /\ err_title err = "Not allowed").
Proof.
  intros R I1 I2 I3 I4 I5 I6 I7 s request routed known. subst routed known.
  pose proof (route_cases R I1 I2 I3 I4 I5 I6 I7 s request) as Hcases.
  destruct (WSLoop.route _ _ _ _ _ _ _ _ s request) as [a|].
  - destruct Hcases as [Hknown Hhandles]. split; [| split].
    + split; [done | tauto].
    + intros response op [= ->].
      destruct Hhandles as [[= -> ->]|(description & [=])]. done.
    + intros response err [= ->].
      destruct Hhandles as [[=]|(description & [= -> ->])]. done.
  - split; [| split]; [tauto | done | done].
Qed.

(** A Patch of users under the root is dispatched as a Patch; a request
    whose operation is [purge] is dropped. *)
Lemma listen_routes_by_operation_witness :
  let route :=
    WSLoop.route _ (allowedUnder OperationRetrieveMany)
      (allowedUnder OperationCreate) (allowedUnder OperationInfo)
      (allowedUnder OperationPatch) (allowedAlone OperationRetrieve)
      (allowedAlone OperationUpdate) (allowedAlone OperationDelete)
      testSession in
  route (mkRequest OperationPatch UserIdentity RootIdentity 0 (Some ∅))
  = Some (WS.RunWSDispatcher
            (NewResponse
               (mkRequest OperationPatch UserIdentity RootIdentity 0 (Some ∅)))
            OperationPatch)
  /\ route (mkRequest "purge" UserIdentity RootIdentity 0 (Some ∅)) = None.
Proof.
  cbv zeta. split.
  - reflexivity.
  - apply (proj1 (listen_routes_by_operation _
                    (allowedUnder OperationRetrieveMany)
                    (allowedUnder OperationCreate) (allowedUnder OperationInfo)
                    (allowedUnder OperationPatch)
                    (allowedAlone OperationRetrieve)
                    (allowedAlone OperationUpdate)
                    (allowedAlone OperationDelete) testSession
                    (mkRequest "purge" UserIdentity RootIdentity 0 (Some ∅)))).
    cbn. intuition discriminate.
Defined.

(** X15.  The token of the session is written into a request, with the
    user name [Bearer], only when the request has no password and the
    session has a token; a request that brings a password keeps its
    credentials, and doing it twice changes nothing more. *)
Theorem backportToken_rules :
  forall (token : string) (c : WSLoop.credentials),
    (WSLoop.Password c <> EmptyString -> WSLoop.backportToken token c = c)
    /\ (token = EmptyString -> WSLoop.backportToken token c = c)
    /\ (WSLoop.Password c = EmptyString -> token <> EmptyString ->
        WSLoop.backportToken token c = WSLoop.mkCredentials "Bearer" token)
    /\ WSLoop.backportToken token (WSLoop.backportToken token c)
       = WSLoop.backportToken token c.
Proof.
  intros token c. unfold WSLoop.backportToken.
  destruct (String.eqb_spec (WSLoop.Password c) EmptyString) as [Hp|Hp];
    destruct (String.eqb_spec token EmptyString) as [Ht|Ht];
    cbn [negb WSLoop.Password]; repeat split; try done.
  - by rewrite Hp.
  - destruct (String.eqb_spec token EmptyString); done.
  - destruct (String.eqb_spec (WSLoop.Password c) EmptyString); done.
  - destruct (String.eqb_spec (WSLoop.Password c) EmptyString); done.
Qed.

(** A request without credentials on a session with the token [t0k3n]. *)
Lemma backportToken_rules_witness :
  WSLoop.backportToken "t0k3n" (WSLoop.mkCredentials EmptyString EmptyString)
  = WSLoop.mkCredentials "Bearer" "t0k3n"
  /\ WSLoop.backportToken "t0k3n" (WSLoop.mkCredentials "alice" "secret")
     = WSLoop.mkCredentials "alice" "secret".
Proof.
  split.
  - apply (proj1 (proj2 (proj2 (backportToken_rules "t0k3n" _))));
      [reflexivity | discriminate].
  - apply (proj1 (backportToken_rules "t0k3n" _)). discriminate.
Defined.

Section ReadSpec.

Import WSLoop.
Implicit Types (st : readState) (turns : list (received * chosen)).

Lemma readTurn_effect st recv sel :
  let st' := fst (readTurn st recv sel) in
  snd (readTurn st recv sel) = goesOn (recv, sel)
  /\ queued st' = (queued st ++ intake (recv, sel))%list
  /\ written st' = (written st ++ refusal (recv, sel))%list
  /\ cancelled st' = cancelled st || negb (goesOn (recv, sel))
  /\ stopAll st'
     = match recv with
       | RecvError => S (stopAll st)
       | _ => stopAll st
       end.
Proof.
  destruct recv, sel; cbn;
    rewrite ?app_nil_r, ?orb_false_r, ?orb_true_r; repeat split.
Qed.

Lemma read_effect st turns :
  let st' := fst (read st turns) in
  snd (read st turns) = forallb goesOn turns
  /\ queued st' = (queued st ++ flat_map intake (played turns))%list
  /\ written st' = (written st ++ flat_map refusal (played turns))%list
  /\ cancelled st' = cancelled st || negb (forallb goesOn turns)
  /\ stopAll st'
     = (stopAll st
        + length (List.filter failed (played turns)))%nat.
Proof.
  revert st. induction turns as [|[recv sel] rest IH]; intros st.
  - cbn. rewrite !app_nil_r, orb_false_r. repeat split. lia.
  - cbn [read forallb played].
    destruct (readTurn_effect st recv sel) as (Hon & Hq & Hw & Hc & Hs).
    destruct (readTurn st recv sel) as [st1 on]. cbn [fst snd] in *.
    rewrite <- Hon. destruct on.
    + destruct (IH st1) as (IHon & IHq & IHw & IHc & IHs).
      cbn [andb flat_map]. rewrite IHon, IHq, IHw, IHc, IHs, Hq, Hw, Hc, Hs.
      rewrite <- Hon. cbn [negb]. rewrite orb_false_r, <- !app_assoc.
      repeat split.
      destruct recv; cbn; lia.
    + cbn [andb negb flat_map fst snd].
      rewrite Hq, Hw, Hc, Hs, <- Hon, !app_nil_r. cbn [negb].
      repeat split.
      destruct recv; cbn; lia.
Qed.

End ReadSpec.

(** X16.  The [read] loop hands requests to the session in the order the
    socket delivered them: what it has sent on the channel is what was
    there before, followed by the request of each turn it played whose
    [select] sent.  A turn that ends in a JSON syntax error writes one 400
    [Invalid JSON] error to the socket and still sends its request on the
    channel. *)
Theorem read_keeps_wire_order :
  forall (st : WSLoop.readState)
         (turns : list (WSLoop.received * WSLoop.chosen)),
    let st' := fst (WSLoop.read st turns) in
    WSLoop.queued st'
    = (WSLoop.queued st
         ++ flat_map WSLoop.intake (WSLoop.played turns))%list
    /\ WSLoop.written st'
       = (WSLoop.written st
            ++ flat_map WSLoop.refusal (WSLoop.played turns))%list
    /\ forall request,
        WSLoop.intake (WSLoop.RecvSyntaxError request, WSLoop.SendRequest)
        = [request]
        /\ WSLoop.refusal (WSLoop.RecvSyntaxError request, WSLoop.SendRequest)
           = [(NewResponse request,
               NewError "Bad Request" "Invalid JSON" "bahamut" 400)].
Proof.
  intros st turns st'. subst st'.
  destruct (read_effect st turns) as (_ & Hq & Hw & _).
  split; [exact Hq |]. split; [exact Hw |]. intros request. by split.
Qed.

(** X17.  The [read] loop ends at the first turn whose receive fails with
    anything but a syntax error, or whose [select] takes the stop signal,
    and at no other turn.  It cancels the session when it ends and not
    before; it signals [stopAll] once when it ends on a failed receive, and
    never otherwise; nothing of the turns after the last one played is
    read. *)
Theorem read_ends_on_failure_or_stop :
  forall (st : WSLoop.readState)
         (turns : list (WSLoop.received * WSLoop.chosen)),
    let st' := fst (WSLoop.read st turns) in
    let on := snd (WSLoop.read st turns) in
    on = forallb WSLoop.goesOn turns
    /\ WSLoop.cancelled st' = WSLoop.cancelled st || negb on
    /\ (on = true -> WSLoop.stopAll st' = WSLoop.stopAll st)
    /\ (WSLoop.stopAll st' <= S (WSLoop.stopAll st))%nat
    /\ WSLoop.read st (WSLoop.played turns) = WSLoop.read st turns.
Proof.
  intros st turns st' on. subst st' on.
  destruct (read_effect st turns) as (Hon & _ & _ & Hc & Hs).
  assert (Hcount : forall ts,
             (length (List.filter WSLoop.failed (WSLoop.played ts)) <= 1)%nat
             /\ (forallb WSLoop.goesOn ts = true ->
                 length (List.filter WSLoop.failed (WSLoop.played ts))
                 = 0%nat)).
  { induction ts as [|[recv sel] rest [IHle IHz]];
      [cbn; split; [lia | done] |].
    cbn [WSLoop.played forallb].
    destruct (WSLoop.goesOn (recv, sel)) eqn:Hgo.
    - destruct recv; try done; cbn; by split.
    - cbn [andb]. split; [| done]. destruct recv; cbn; lia. }
  split; [exact Hon |]. split; [by rewrite Hc, Hon |].
  split; [| split].
  - intros Htrue. rewrite Hs, Hon in *.
    rewrite (proj2 (Hcount turns) Htrue). lia.
  - rewrite Hs. destruct (Hcount turns) as [Hle _]. lia.
  - clear. revert st. induction turns as [|[recv sel] rest IH]; intros st.
    + reflexivity.
    + cbn [WSLoop.played].
      destruct (readTurn_effect st recv sel) as (Hon & _).
      destruct (WSLoop.goesOn (recv, sel)) eqn:Hgo; cbn [WSLoop.read].
      * destruct (WSLoop.readTurn st recv sel) as [st1 on].
        cbn [snd] in Hon. subst on. apply IH.
      * destruct (WSLoop.readTurn st recv sel) as [st1 on].
        cbn [snd] in Hon. by subst on.
Qed.
